(** * prefect.client: the authenticated request engine, GraphQL execution
      and the login / logout / refresh flow of [src/prefect/client.py].

    The Python methods of [Client] are embedded as computations in a small
    state-and-exception monad.  The state holds the [Client] object itself
    (its attributes, [token] possibly deleted), the credential file under
    [~/.prefect/.credentials], the remote servers (an arbitrary transition
    function answering each HTTP call) and a trace of the HTTP calls made,
    each tagged with the method of [Client] that issued it. *)

From Stdlib Require Import String Ascii List ZArith Bool Lia DecimalString.
Import ListNotations.
Open Scope string_scope.
Open Scope Z_scope.

Set Warnings "-register-all".

(** ** Python values

    The values that travel through the client: what [json.loads] can
    return and what [json.dumps] accepts.  A [dict] is an association list
    in insertion order (keys are [str]); numbers are the integers. *)

Inductive pyval : Type :=
| PNone
| PBool (b : bool)
| PInt (z : Z)
| PStr (s : string)
| PList (items : list pyval)
| PDict (entries : list (string * pyval)).

Definition dict := list (string * pyval).

(** [d.get(key)] and [key in d] on the entries of a dict. *)
Fixpoint dict_get (key : string) (d : dict) : option pyval :=
  match d with
  | [] => None
  | (k, v) :: rest => if String.eqb k key then Some v else dict_get key rest
  end.

Definition dict_has (key : string) (d : dict) : bool :=
  match dict_get key d with Some _ => true | None => false end.

(** Truth value of an object, as tested by [if x:], [not x] and [x or y]. *)
Definition truthy (v : pyval) : bool :=
  match v with
  | PNone => false
  | PBool b => b
  | PInt z => negb (z =? 0)
  | PStr s => negb (String.eqb s "")
  | PList l => match l with [] => false | _ => true end
  | PDict d => match d with [] => false | _ => true end
  end.

(** ** Strings: characters are code points below 256 *)

Module PyString.

Definition dquote : ascii := "034"%char.
Definition squote : ascii := "'"%char.
Definition backslash : ascii := "\"%char.

Definition code (c : ascii) : Z := Z.of_N (N_of_ascii c).

Definition hex_digit (n : Z) : ascii :=
  if n <? 10 then ascii_of_N (Z.to_N (48 + n)) else ascii_of_N (Z.to_N (87 + n)).

Definition hex2 (c : ascii) : string :=
  String (hex_digit (code c / 16)) (String (hex_digit (code c mod 16)) "").

Definition decimal (z : Z) : string := NilZero.string_of_int (Z.to_int z).

Fixpoint contains_char (c : ascii) (s : string) : bool :=
  match s with
  | EmptyString => false
  | String a rest => Ascii.eqb a c || contains_char c rest
  end.

(** [needle in s] for two strings. *)
Definition contains (needle s : string) : bool :=
  match index 0 needle s with Some _ => true | None => false end.

Fixpoint flat_map_chars (f : ascii -> string) (s : string) : string :=
  match s with
  | EmptyString => ""
  | String a rest => f a ++ flat_map_chars f rest
  end.

(** [s.lstrip("/")] and [s.rstrip("/")]. *)
Fixpoint lstrip_slash (s : string) : string :=
  match s with
  | String "/" rest => lstrip_slash rest
  | _ => s
  end.

Fixpoint rstrip_slash (s : string) : string :=
  match s with
  | EmptyString => ""
  | String a rest =>
      match rstrip_slash rest with
      | EmptyString => if Ascii.eqb a "/" then "" else String a ""
      | r => String a r
      end
  end.

Fixpoint ends_with_slash (s : string) : bool :=
  match s with
  | EmptyString => false
  | String a EmptyString => Ascii.eqb a "/"
  | String _ rest => ends_with_slash rest
  end.

(** [os.path.join(a, b)] of [posixpath]. *)
Definition os_path_join (a b : string) : string :=
  if prefix "/" b then b
  else if String.eqb a "" || ends_with_slash a then a ++ b
  else a ++ "/" ++ b.

(** One character inside a [json.dumps] string literal
    ([ensure_ascii=True]). *)
Definition json_escape_char (c : ascii) : string :=
  if Ascii.eqb c backslash then "\\"
  else if Ascii.eqb c dquote then String backslash (String dquote "")
  else if code c =? 8 then "\b"
  else if code c =? 12 then "\f"
  else if code c =? 10 then "\n"
  else if code c =? 13 then "\r"
  else if code c =? 9 then "\t"
  else if (32 <=? code c) && (code c <=? 126) then String c ""
  else "\u00" ++ hex2 c.

Definition json_quote (s : string) : string :=
  String dquote (flat_map_chars json_escape_char s ++ String dquote "").

(** One character inside [repr(s)], [q] being the quote chosen. *)
Definition repr_escape_char (q c : ascii) : string :=
  if Ascii.eqb c backslash then "\\"
  else if Ascii.eqb c q then String backslash (String q "")
  else if code c =? 9 then "\t"
  else if code c =? 10 then "\n"
  else if code c =? 13 then "\r"
  else if (code c <? 32) || (code c =? 127)
          || ((128 <=? code c) && (code c <=? 160)) || (code c =? 173)
       then "\x" ++ hex2 c
  else String c "".

Definition repr_str (s : string) : string :=
  let q := if contains_char squote s && negb (contains_char dquote s)
           then dquote else squote in
  String q (flat_map_chars (repr_escape_char q) s ++ String q "").

End PyString.

Import PyString.

(** [json.dumps(v)] with the default separators. *)
Fixpoint json_dumps (v : pyval) : string :=
  match v with
  | PNone => "null"
  | PBool true => "true"
  | PBool false => "false"
  | PInt z => decimal z
  | PStr s => json_quote s
  | PList l => "[" ++ String.concat ", " (map json_dumps l) ++ "]"
  | PDict d =>
      "{" ++ String.concat ", "
               (map (fun kv => json_quote (fst kv) ++ ": " ++ json_dumps (snd kv)) d)
          ++ "}"
  end.

(** [repr(v)] and [str(v)], the latter being what ["{}".format(v)] prints. *)
Fixpoint py_repr (v : pyval) : string :=
  match v with
  | PNone => "None"
  | PBool true => "True"
  | PBool false => "False"
  | PInt z => decimal z
  | PStr s => repr_str s
  | PList l => "[" ++ String.concat ", " (map py_repr l) ++ "]"
  | PDict d =>
      "{" ++ String.concat ", "
               (map (fun kv => repr_str (fst kv) ++ ": " ++ py_repr (snd kv)) d)
          ++ "}"
  end.

Definition py_str (v : pyval) : string :=
  match v with
  | PStr s => s
  | _ => py_repr v
  end.

(** ** HTTP: the [requests] library as seen by the client *)

Inductive verb : Type := GET | POST | DELETE.

(** The keyword arguments one call of [requests.get], [requests.post] or
    [requests.delete] receives. *)
Record http_call : Type := mk_call {
  call_verb : verb;
  call_url : string;
  call_headers : list (string * string);   (* headers= *)
  call_auth : option (string * string);    (* auth=    *)
  call_params : option dict;               (* params=  *)
  call_json : option pyval                 (* json=    *)
}.

(** A [requests.models.Response]: the status, the body text, and what
    [response.json()] returns ([None] when the body is not JSON and
    decoding raises). *)
Record Response : Type := mk_response {
  status_code : Z;
  text : string;
  json : option pyval
}.

(** What a call of the transport does: answer, or raise one of the
    exceptions of [requests] that is not an [HTTPError] (connection error,
    timeout, ...), named by [reason]. *)
Inductive reply : Type :=
| Responded (r : Response)
| Failed (reason : string).

Inductive exn : Type :=
| ValueError (arg : pyval)
| HTTPError (response : Response)
| JSONDecodeError
| AttributeError (name : string)
| KeyError (key : string)
| TypeError (msg : string)
| RequestException (reason : string).

(** The errors of [_request] and [login], by the name the documentation
    gives them. *)
Definition Unauthenticated : exn :=
  ValueError (PStr "Call Client.login() to set the client token.").
Definition InvalidMethod (method : string) : exn :=
  ValueError (PStr ("Invalid method: " ++ method)).
Definition LoginFailed : exn := ValueError (PStr "Could not log in.").
Definition GraphQLError (errors : pyval) : exn := ValueError errors.

(** ** The client object and its surroundings *)

(** [token = None] is a client whose attribute [token] has been deleted
    ([del self.token]); [Some PNone] is the attribute holding [None]. *)
Record Client : Type := mk_client {
  api_server : string;
  graphql_server : string;
  token : option pyval
}.

(** [~/.prefect/.credentials] and the file [auth_token] inside it. *)
Record Disk : Type := mk_disk {
  creds_dir : bool;
  auth_token_file : option string
}.

(** [prefect.config.cloud]. *)
Record Config : Type := mk_config {
  cfg_api : option string;
  cfg_graphql : option string;
  cfg_auth_token : option string;
  cfg_email : string;
  cfg_password : string
}.

(** Which method issued a call to the transport. *)
Inductive origin : Type := ByRequest | ByRefresh | ByLogin.

Definition origin_eqb (a b : origin) : bool :=
  match a, b with
  | ByRequest, ByRequest | ByRefresh, ByRefresh | ByLogin, ByLogin => true
  | _, _ => false
  end.

Definition trace := list (origin * http_call).

(** Number of calls a method has issued. *)
Definition calls (o : origin) (t : trace) : nat :=
  length (filter (fun ev => origin_eqb (fst ev) o) t).

Inductive outcome (A : Type) : Type :=
| Return (a : A)
| Raise (e : exn).
Arguments Return {A} a.
Arguments Raise {A} e.

(** ** The monad of the methods

    A computation takes the state to an outcome and a new state; the state
    reached when an exception is raised is kept, as assignments made before
    a [raise] are in Python. *)

Section Engine.

(** The remote side: any state type with any transition answering the
    calls. *)
Context {Net : Type}.
Variable send : http_call -> Net -> reply * Net.
Variable config : Config.

Record State : Type := mk_state {
  self : Client;
  disk : Disk;
  net : Net;
  log : trace
}.

Definition M (A : Type) : Type := State -> outcome A * State.

Definition ret {A} (a : A) : M A := fun st => (Return a, st).
Definition raise {A} (e : exn) : M A := fun st => (Raise e, st).
Definition bind {A B} (c : M A) (k : A -> M B) : M B :=
  fun st =>
    match c st with
    | (Return a, st') => k a st'
    | (Raise e, st') => (Raise e, st')
    end.

(** [try: body / except ... as err: handler]. *)
Definition try_except {A} (body : M A) (handler : exn -> M A) : M A :=
  fun st =>
    match body st with
    | (Return a, st') => (Return a, st')
    | (Raise e, st') => handler e st'
    end.

Notation "x <- c ;; k" := (bind c (fun x => k))
  (at level 61, c at next level, right associativity).
Notation "c ;;; k" := (bind c (fun _ => k))
  (at level 61, right associativity).

(** *** Attributes of [self] *)

Definition self_api_server : M string :=
  fun st => (Return (api_server (self st)), st).

Definition self_graphql_server : M string :=
  fun st => (Return (graphql_server (self st)), st).

(** Reading [self.token]. *)
Definition self_token : M pyval :=
  fun st =>
    match token (self st) with
    | Some v => (Return v, st)
    | None => (Raise (AttributeError "token"), st)
    end.

Definition with_token (t : option pyval) (st : State) : State :=
  mk_state (mk_client (api_server (self st)) (graphql_server (self st)) t)
           (disk st) (net st) (log st).

(** [self.token = v]. *)
Definition set_token (v : pyval) : M unit :=
  fun st => (Return tt, with_token (Some v) st).

(** [del self.token]. *)
Definition del_token : M unit :=
  fun st =>
    match token (self st) with
    | Some _ => (Return tt, with_token None st)
    | None => (Raise (AttributeError "token"), st)
    end.

(** *** The credential file *)

Definition with_disk (d : Disk) (st : State) : State :=
  mk_state (self st) d (net st) (log st).

(** [if not os.path.exists(creds_path): os.makedirs(creds_path)]. *)
Definition ensure_creds_dir : M unit :=
  fun st =>
    if creds_dir (disk st) then (Return tt, st)
    else (Return tt, with_disk (mk_disk true (auth_token_file (disk st))) st).

(** [open(os.path.join(creds_path, "auth_token"), "w+")]: the file is
    created or emptied. *)
Definition open_auth_token_w : M unit :=
  fun st => (Return tt, with_disk (mk_disk (creds_dir (disk st)) (Some EmptyString)) st).

(** [f.write(v)] on the file just opened. *)
Definition write_auth_token (v : pyval) : M unit :=
  fun st =>
    match v with
    | PStr s => (Return tt, with_disk (mk_disk (creds_dir (disk st)) (Some s)) st)
    | _ => (Raise (TypeError "write() argument must be str"), st)
    end.

(** [if os.path.exists(token_path): os.remove(token_path)]. *)
Definition remove_auth_token : M unit :=
  fun st =>
    match auth_token_file (disk st) with
    | Some _ => (Return tt, with_disk (mk_disk (creds_dir (disk st)) None) st)
    | None => (Return tt, st)
    end.

(** *** Calls of [requests] *)

Definition transport (o : origin) (c : http_call) : M Response :=
  fun st =>
    let (rep, n) := send c (net st) in
    let st' := mk_state (self st) (disk st) n (log st ++ [(o, c)])%list in
    match rep with
    | Responded r => (Return r, st')
    | Failed reason => (Raise (RequestException reason), st')
    end.

Definition requests_get (o : origin) (url : string)
    (headers : list (string * string)) (params : dict) : M Response :=
  transport o (mk_call GET url headers None (Some params) None).

Definition requests_post (o : origin) (url : string)
    (headers : list (string * string)) (auth : option (string * string))
    (body : option pyval) : M Response :=
  transport o (mk_call POST url headers auth None body).

Definition requests_delete (o : origin) (url : string)
    (headers : list (string * string)) : M Response :=
  transport o (mk_call DELETE url headers None None None).

(** [response.raise_for_status()] and [response.ok]. *)
Definition is_error_status (r : Response) : bool :=
  (400 <=? status_code r) && (status_code r <? 600).

Definition raise_for_status (r : Response) : M unit :=
  if is_error_status r then raise (HTTPError r) else ret tt.

Definition ok (r : Response) : bool := negb (is_error_status r).

(** [response.json()]. *)
Definition response_json (r : Response) : M pyval :=
  match json r with
  | Some v => ret v
  | None => raise JSONDecodeError
  end.

(** *** Operations on the decoded body *)

(** [v.get(key)]. *)
Definition py_get (v : pyval) (key : string) : M pyval :=
  match v with
  | PDict d => ret (match dict_get key d with Some x => x | None => PNone end)
  | _ => raise (AttributeError "get")
  end.

(** [key in v]. *)
Definition py_in (key : string) (v : pyval) : M bool :=
  match v with
  | PDict d => ret (dict_has key d)
  | PList l =>
      ret (existsb (fun x => match x with PStr s => String.eqb s key | _ => false end) l)
  | PStr s => ret (contains key s)
  | _ => raise (TypeError "argument is not iterable")
  end.

(** [v[key]] for a [str] key. *)
Definition py_getitem (v : pyval) (key : string) : M pyval :=
  match v with
  | PDict d =>
      match dict_get key d with
      | Some x => ret x
      | None => raise (KeyError key)
      end
  | _ => raise (TypeError "indices must be integers")
  end.

(** *** [Client.refresh_token] *)

Definition bearer (tok : pyval) : list (string * string) :=
  [("Authorization", "Bearer " ++ py_str tok)].

Definition refresh_token : M unit :=
  api <- self_api_server ;;
  let url := os_path_join api "refresh_token" in
  tok <- self_token ;;
  response <- requests_post ByRefresh url (bearer tok) None None ;;
  body <- response_json response ;;
  new_token <- py_get body "token" ;;
  set_token new_token.

(** *** [Client._request] *)

(** The inner function [request_fn]; [method], [url] and [params] are
    the variables of [_request] it closes over. *)
Definition request_fn (method url : string) (params : dict) : M Response :=
  tok <- self_token ;;
  let headers := bearer tok in
  response <-
    (if String.eqb method "GET" then requests_get ByRequest url headers params
     else if String.eqb method "POST" then
       requests_post ByRequest url headers None (Some (PDict params))
     else if String.eqb method "DELETE" then requests_delete ByRequest url headers
     else raise (InvalidMethod method)) ;;
  raise_for_status response ;;;
  ret response.

Definition _request (method path : string) (params : option dict)
    (server : option string) : M Response :=
  api <- self_api_server ;;
  let server := match server with Some s => s | None => api end in
  tok <- self_token ;;
  match tok with
  | PNone => raise Unauthenticated
  | _ =>
      let url := rstrip_slash (os_path_join server (lstrip_slash path)) in
      (* params or {}: None and the empty dict both give the empty dict *)
      let params := match params with Some d => d | None => [] end in
      try_except (request_fn method url params)
        (fun err =>
           match err with
           | HTTPError r =>
               if status_code r =? 401 then
                 refresh_token ;;; request_fn method url params
               else raise err
           | _ => raise err
           end)
  end.

(** *** [Client.post] and [Client.graphql] *)

Definition post (path : string) (server : option string) (params : dict) : M pyval :=
  response <- _request "POST" path (Some params) server ;;
  if negb (String.eqb (text response) EmptyString) then response_json response
  else ret (PDict []).

(** Modelled from the spec: [as_nested_dict] of [prefect.utilities.graphql]
    is not in the source at hand.  Section 4.4: mappings become
    attribute-accessible nodes, arrays remain ordered sequences of the
    same transform, scalars pass through unchanged.  A node is kept as
    the dict of its attributes, read by [py_getattr]. *)
Fixpoint as_nested_dict (v : pyval) : pyval :=
  match v with
  | PList l => PList (map as_nested_dict l)
  | PDict d => PDict (map (fun kv => (fst kv, as_nested_dict (snd kv))) d)
  | _ => v
  end.

(** [node.name] on what [as_nested_dict] returns. *)
Definition py_getattr (v : pyval) (name : string) : M pyval :=
  match v with
  | PDict d =>
      match dict_get name d with
      | Some x => ret x
      | None => raise (AttributeError name)
      end
  | _ => raise (AttributeError name)
  end.

(** The keyword arguments [graphql] hands to [post]. *)
Definition graphql_params (query : string) (variables : dict) : dict :=
  [("query", PStr query); ("variables", PStr (json_dumps (PDict variables)))].

Definition graphql (query : string) (variables : dict) : M pyval :=
  let params := graphql_params query variables in
  server <- self_graphql_server ;;
  result <- post "" (Some server) params ;;
  has_errors <- py_in "errors" result ;;
  if has_errors then
    errors <- py_getitem result "errors" ;;
    raise (GraphQLError errors)
  else py_getattr (as_nested_dict result) "data".

(** *** [Client.login] and [Client.logout] *)

(** [x or default] for an optional [str] argument. *)
Definition or_default (x : option string) (default : string) : string :=
  match x with
  | Some (String _ _ as s) => s
  | _ => default
  end.

Definition of_optional (x : option string) : pyval :=
  match x with Some s => PStr s | None => PNone end.

Definition login (email password account_slug account_id : option string) : M unit :=
  let email := or_default email (cfg_email config) in
  let password := or_default password (cfg_password config) in
  api <- self_api_server ;;
  let url := os_path_join api "login" in
  response <- requests_post ByLogin url [] (Some (email, password))
                (Some (PDict [("account_id", of_optional account_id);
                              ("account_slug", of_optional account_slug)])) ;;
  if negb (ok response) then raise LoginFailed
  else
    body <- response_json response ;;
    new_token <- py_get body "token" ;;
    set_token new_token ;;;
    tok <- self_token ;;
    if truthy tok then
      ensure_creds_dir ;;;
      open_auth_token_w ;;;
      tok' <- self_token ;;
      write_auth_token tok'
    else ret tt.

Definition logout : M unit :=
  remove_auth_token ;;;
  del_token.

(** *** [Client.__init__], given the [token] argument and the disk *)

Definition __init__ (tok : option string) (d : Disk) : outcome Client :=
  match cfg_api config with
  | Some (String _ _ as api) =>
      let graphql_server :=
        match cfg_graphql config with
        | Some (String _ _ as g) => g
        | _ => api
        end in
      let tok :=
        match tok with
        | Some t => Some t
        | None =>
            match cfg_auth_token config with
            | Some t => Some t
            | None => auth_token_file d
            end
        end in
      Return (mk_client api graphql_server (Some (of_optional tok)))
  | _ => Raise (ValueError (PStr "Could not determine API server."))
  end.

End Engine.

Arguments State Net : clear implicits.
Arguments M Net A : clear implicits.

(** ** What the methods send and what they make of the reply *)

(** The call [request_fn] issues for a method, if the method is one of
    the three it knows. *)
Definition request_call (method url : string) (tok : pyval) (params : dict)
  : option http_call :=
  if String.eqb method "GET" then
    Some (mk_call GET url (bearer tok) None (Some params) None)
  else if String.eqb method "POST" then
    Some (mk_call POST url (bearer tok) None None (Some (PDict params)))
  else if String.eqb method "DELETE" then
    Some (mk_call DELETE url (bearer tok) None None None)
  else None.

(** The call [refresh_token] issues. *)
Definition refresh_call (api : string) (tok : pyval) : http_call :=
  mk_call POST (os_path_join api "refresh_token") (bearer tok) None None None.

(** The call [login] issues. *)
Definition login_call (config : Config) (api : string)
    (email password account_slug account_id : option string) : http_call :=
  mk_call POST (os_path_join api "login") []
    (Some (or_default email (cfg_email config),
           or_default password (cfg_password config)))
    None
    (Some (PDict [("account_id", of_optional account_id);
                  ("account_slug", of_optional account_slug)])).

(** The URL [_request] computes. *)
Definition request_url (c : Client) (path : string) (server : option string) : string :=
  rstrip_slash
    (os_path_join (match server with Some s => s | None => api_server c end)
                  (lstrip_slash path)).

Definition request_params (params : option dict) : dict :=
  match params with Some d => d | None => [] end.

(** How one run of [request_fn] ends, given the reply to its call. *)
Definition settle (rep : reply) : outcome Response :=
  match rep with
  | Responded r => if is_error_status r then Raise (HTTPError r) else Return r
  | Failed reason => Raise (RequestException reason)
  end.

(** The token [refresh_token] extracts from the reply to its call, or the
    exception it raises instead. *)
Definition refreshed (rep : reply) : outcome pyval :=
  match rep with
  | Responded r =>
      match json r with
      | Some (PDict d) =>
          Return (match dict_get "token" d with Some x => x | None => PNone end)
      | Some _ => Raise (AttributeError "get")
      | None => Raise JSONDecodeError
      end
  | Failed reason => Raise (RequestException reason)
  end.

(** The state once a call has been answered. *)
Definition answered {Net} (st : State Net) (n : Net) (o : origin) (c : http_call)
  : State Net :=
  mk_state (self st) (disk st) n (log st ++ [(o, c)])%list.

(** ** A scripted transport

    The remote side as a list of replies handed out in order, one per call,
    whatever the call; when the list is used up the connection fails. *)

Definition script := list reply.

Definition play (c : http_call) (s : script) : reply * script :=
  match s with
  | r :: rest => (r, rest)
  | [] => (Failed "ConnectionError", [])
  end.

Definition respond (status : Z) (body : string) (decoded : option pyval) : reply :=
  Responded (mk_response status body decoded).

Definition no_config : Config :=
  mk_config (Some "https://api.prefect.io") None None "user@example.com" "secret".

Definition client_with (tok : option pyval) : Client :=
  mk_client "https://api.prefect.io" "https://api.prefect.io/graphql" tok.

Definition start (tok : option pyval) (file : option string) (s : script) : State script :=
  mk_state (client_with tok) (mk_disk true file) s [].

(** An answer with status [status] whose body is the JSON text of [v]. *)
Definition respond_json (status : Z) (v : pyval) : reply :=
  respond status (json_dumps v) (Some v).

(** ** The wording of the specification where the code departs from it *)

Section Wording.

Context {Net : Type}.
Variable send : http_call -> Net -> reply * Net.
Variable config : Config.

(** Sections 4.2 and 8: a first dispatch answered 401 ... *)
Definition first_dispatch_is_401 (method path : string) (params : option dict)
    (server : option string) (st : State Net) : Prop :=
  exists tok c r n,
    token (self st) = Some tok /\ tok <> PNone
    /\ request_call method (request_url (self st) path server) tok
                    (request_params params) = Some c
    /\ send c (net st) = (Responded r, n)
    /\ status_code r = 401.

(** ... always gives two dispatches of the request and one refresh. *)
Definition two_dispatches_one_refresh (method path : string) (params : option dict)
    (server : option string) (st : State Net) : Prop :=
  let final := snd (_request send method path params server st) in
  calls ByRequest (log final) = (calls ByRequest (log st) + 2)%nat
  /\ calls ByRefresh (log final) = (calls ByRefresh (log st) + 1)%nat.

(** Sections 4.5 and 8: a successful answer to [login] whose body has no
    [token] field ... *)
Definition login_answer_lacks_token
    (email password account_slug account_id : option string) (st : State Net) : Prop :=
  exists r n d,
    send (login_call config (api_server (self st)) email password account_slug account_id)
         (net st) = (Responded r, n)
    /\ ok r = true /\ json r = Some (PDict d) /\ dict_get "token" d = None.

(** ... leaves the token as it was, in memory and on disk. *)
Definition login_keeps_token
    (email password account_slug account_id : option string) (st : State Net) : Prop :=
  let final := snd (login send config email password account_slug account_id st) in
  token (self final) = token (self st) /\ disk final = disk st.

(** Section 4.5: the token an answer to the refresh call provides, null
    when it provides none. *)
Definition provided_token (rep : reply) : pyval :=
  match rep with
  | Responded r =>
      match json r with
      | Some (PDict d) =>
          match dict_get "token" d with Some t => t | None => PNone end
      | _ => PNone
      end
  | Failed _ => PNone
  end.

(** Every call of the refresh operation stores the token provided. *)
Definition refresh_stores_provided_token (st : State Net) : Prop :=
  forall tok,
    token (self st) = Some tok ->
    token (self (snd (refresh_token send st)))
    = Some (provided_token
              (fst (send (refresh_call (api_server (self st)) tok) (net st)))).

End Wording.

(** Section 4.3: each variable value serialized on its own. *)
Definition each_value_serialized (variables : dict) : dict :=
  map (fun kv => (fst kv, PStr (json_dumps (snd kv)))) variables.

(** The [variables] field as section 4.3 words it: a JSON string holding
    string-encoded values. *)
Definition spec_variables_field (variables : dict) : pyval :=
  PStr (json_dumps (PDict (each_value_serialized variables))).

(** ** Runs on a scripted transport *)

Module Scenario.

Definition flows (tok : pyval) : http_call :=
  mk_call GET "https://api.prefect.io/flows" (bearer tok) None (Some []) None.

Definition refresh_old : http_call :=
  refresh_call "https://api.prefect.io" (PStr "old").

Definition unauthorized : Response := mk_response 401 "Unauthorized" None.
Definition server_error : Response := mk_response 500 "Internal Server Error" None.

Definition new_token : pyval := PDict [("token", PStr "new")].
Definition no_token : pyval := PDict [("message", PStr "expired")].
Definition flow_list : Response :=
  mk_response 200 (json_dumps (PList [])) (Some (PList [])).

(** A client holding the token [old], also saved in the credential file. *)
Definition logged_in (s : script) : State script :=
  start (Some (PStr "old")) (Some "old") s.

(** 401, then a refresh that yields [new], then success. *)
Definition recovered : State script :=
  logged_in [Responded unauthorized; respond_json 200 new_token; Responded flow_list].

(** 401, then the refresh call fails to connect. *)
Definition refresh_unreachable : State script :=
  logged_in [Responded unauthorized; Failed "ConnectionError"].

(** 401, then a refresh answer without a token, then 401 again. *)
Definition refresh_without_token : State script :=
  logged_in [Responded unauthorized; respond_json 401 no_token; Responded unauthorized].

(** A server error on the first dispatch. *)
Definition failing : State script := logged_in [Responded server_error].

(** A login answered 200 with an object holding no token. *)
Definition login_no_token : State script := logged_in [respond_json 200 no_token].

(** A refresh call answered with a body that is not JSON. *)
Definition refresh_not_json : State script := logged_in [Responded unauthorized].

(** A refresh call answered with a new token. *)
Definition refresh_ok : State script := logged_in [respond_json 200 new_token].

(** A GraphQL answer holding both [data] and [errors]. *)
Definition data_and_errors : pyval :=
  PDict [("data", PDict [("flow", PNone)]); ("errors", PList [PStr "boom"])].

Definition graphql_failing : State script :=
  logged_in [respond_json 200 data_and_errors].

Definition graphql_call (body : dict) : http_call :=
  mk_call POST "https://api.prefect.io/graphql" (bearer (PStr "old")) None None
          (Some (PDict body)).

End Scenario.

(** ** [Secret.get] *)

(** What is outside any client: the disk, the remote side and the calls
    made so far. *)
Record World (Net : Type) : Type := mk_world {
  w_disk : Disk;
  w_net : Net;
  w_log : trace
}.
Arguments mk_world {Net}.
Arguments w_disk {Net}.
Arguments w_net {Net}.
Arguments w_log {Net}.

Definition newline : string := String "010"%char EmptyString.

(** The query text of [Secret.get], line breaks and indentation included. *)
Definition secret_query : string :=
  newline ++ "                query($name: String!) {"
  ++ newline ++ "                    secret(name: $name) {"
  ++ newline ++ "                        value"
  ++ newline ++ "                    }"
  ++ newline ++ "                }".

Section SecretEngine.

Context {Net : Type}.
Variable send : http_call -> Net -> reply * Net.
Variable config : Config.

(** [use_local_secrets] is the value of
    [prefect.config.cloud.use_local_secrets]; [context_secrets] is the
    entry [_secrets] of [prefect.context], if there is one. *)
Definition Secret_get (use_local_secrets : pyval) (context_secrets : option pyval)
    (name : string) (w : World Net) : outcome pyval * World Net :=
  match use_local_secrets with
  | PBool true =>
      let secrets := match context_secrets with Some v => v | None => PDict [] end in
      match secrets with
      | PDict d =>
          (Return (match dict_get name d with Some x => x | None => PNone end), w)
      | _ => (Raise (AttributeError "get"), w)
      end
  | _ =>
      match __init__ config None (w_disk w) with
      | Raise e => (Raise e, w)
      | Return client =>
          let run :=
            bind (graphql send secret_query [("name", PStr name)])
                 (fun data =>
                    bind (py_getattr data "secret")
                         (fun secret => py_getattr secret "value")) in
          let (o, st) := run (mk_state client (w_disk w) (w_net w) (w_log w)) in
          (o, mk_world (disk st) (net st) (log st))
      end
  end.

End SecretEngine.

(** ** What a method leaves alone *)

(** The servers of the client and the disk are as they were, and a client
    that had the attribute [token] still has it. *)
Definition offline_frame {Net} (st st' : State Net) : Prop :=
  disk st' = disk st
  /\ api_server (self st') = api_server (self st)
  /\ graphql_server (self st') = graphql_server (self st)
  /\ (token (self st) <> None -> token (self st') <> None).

(** The calls a computation has added to the trace. *)
Definition grows_by {Net} (st st' : State Net) (new : trace) : Prop :=
  log st' = (log st ++ new)%list.

(** No trailing slash. *)
Definition canonical (url : string) : Prop := ends_with_slash url = false.

(** The two ways a client has no token: the attribute holds [None], or
    the attribute has been deleted. *)
Definition token_absent (c : Client) : bool :=
  match token c with
  | None => true
  | Some PNone => true
  | Some _ => false
  end.

Section WordingOfTheRetry.

Context {Net : Type}.
Variable send : http_call -> Net -> reply * Net.

(** A first dispatch answered 401 and an answer to the refresh call that
    provides no usable token: none at all, or one that is false in a
    condition. *)
Definition refresh_answer_lacks_usable_token (method path : string)
    (params : option dict) (server : option string) (st : State Net) : Prop :=
  exists tok c r n,
    token (self st) = Some tok /\ tok <> PNone
    /\ request_call method (request_url (self st) path server) tok
                    (request_params params) = Some c
    /\ send c (net st) = (Responded r, n)
    /\ status_code r = 401
    /\ truthy (provided_token
                 (fst (send (refresh_call (api_server (self st)) tok) n))) = false.

(** The request has been dispatched a second time, and that last call
    carries [Authorization: Bearer None]. *)
Definition retry_carries_bearer_None (method path : string)
    (params : option dict) (server : option string) (st : State Net) : Prop :=
  let final := snd (_request send method path params server st) in
  match rev (log final) with
  | (ByRequest, c2) :: _ => call_headers c2 = [("Authorization", "Bearer None")]
  | _ => False
  end
  /\ calls ByRequest (log final) = (calls ByRequest (log st) + 2)%nat.

End WordingOfTheRetry.

Module Scenario2.

Import Scenario.

Definition secret_body (v : pyval) : pyval :=
  PDict [("data", PDict [("secret", PDict [("value", v)])])].

(** A world with the token [old] in the credential file. *)
Definition world_with_file (s : script) : World script :=
  mk_world (mk_disk true (Some "old")) s [].

(** A world without a credential file. *)
Definition world_without_file (s : script) : World script :=
  mk_world (mk_disk false None) s [].

Definition not_configured : Config :=
  mk_config None None None "user@example.com" "secret".

Definition logged_out (s : script) : State script :=
  start None None s.

Definition empty_token (s : script) : State script :=
  start (Some (PStr EmptyString)) None s.

Definition with_config_token : Config :=
  mk_config (Some "https://api.prefect.io") None (Some "configured")
            "user@example.com" "secret".

Definition secret_call (name : string) : http_call :=
  mk_call POST "https://api.prefect.io" (bearer (PStr "configured")) None None
          (Some (PDict [("query", PStr secret_query);
                        ("variables", PStr (json_dumps (PDict [("name", PStr name)])))])).

Definition login_here : http_call :=
  login_call no_config "https://api.prefect.io" None None None None.

Definition post_flows (tok : pyval) (params : dict) : http_call :=
  mk_call POST "https://api.prefect.io/flows" (bearer tok) None None (Some (PDict params)).

Definition numeric_token : pyval := PDict [("token", PInt 7)].
Definition empty_string_token : pyval := PDict [("token", PStr EmptyString)].

(** 401, then an answer to the refresh call whose body is not JSON. *)
Definition refresh_answer_not_json : State script :=
  logged_in [Responded unauthorized; Responded unauthorized; Responded flow_list].

(** 401, then an answer to the refresh call whose token is the empty
    string, then success. *)
Definition refresh_answer_empty_token : State script :=
  logged_in [Responded unauthorized; respond_json 200 empty_string_token;
             Responded flow_list].

(** A client that has logged out. *)
Definition after_logout : State script :=
  snd (logout (logged_in [Responded flow_list])).

End Scenario2.

(** * Properties *)

Section Properties.

Context {Net : Type}.
Variable send : http_call -> Net -> reply * Net.
Variable config : Config.

Implicit Types (st : State Net) (tok : pyval) (r : Response) (n : Net).

Lemma calls_app o (t u : trace) : calls o (t ++ u)%list = (calls o t + calls o u)%nat.
Proof. unfold calls. rewrite filter_app, length_app. reflexivity. Qed.

Lemma with_token_self st t :
  token (self (with_token t st)) = t.
Proof. reflexivity. Qed.

(** One run of [request_fn] with a known method: one call, nothing else
    touched. *)
Lemma request_fn_call st method url params tok c :
  token (self st) = Some tok ->
  request_call method url tok params = Some c ->
  request_fn send method url params st
  = (settle (fst (send c (net st))), answered st (snd (send c (net st))) ByRequest c).
Proof.
  intros Htok Hc. unfold request_fn, bind, self_token. rewrite Htok.
  unfold request_call in Hc.
  destruct (String.eqb method "GET");
    [| destruct (String.eqb method "POST");
       [| destruct (String.eqb method "DELETE"); [| discriminate]]];
    injection Hc as <-;
    unfold requests_get, requests_post, requests_delete, transport, answered;
    cbn [net self disk log];
    match goal with |- context [send ?c ?n] => destruct (send c n) as [[r | reason] n'] end;
    cbn [fst snd settle]; try reflexivity;
    unfold raise_for_status; destruct (is_error_status r); reflexivity.
Qed.

(** An unknown method is refused before anything is sent. *)
Lemma request_fn_invalid st method url params tok :
  token (self st) = Some tok ->
  request_call method url tok params = None ->
  request_fn send method url params st = (Raise (InvalidMethod method), st).
Proof.
  intros Htok Hc. unfold request_fn, bind, self_token. rewrite Htok.
  unfold request_call in Hc.
  destruct (String.eqb method "GET"); [discriminate |].
  destruct (String.eqb method "POST"); [discriminate |].
  destruct (String.eqb method "DELETE"); [discriminate |].
  reflexivity.
Qed.

(** One run of [refresh_token] on a client that has the attribute. *)
Lemma refresh_token_call st tok :
  token (self st) = Some tok ->
  let c := refresh_call (api_server (self st)) tok in
  let st1 := answered st (snd (send c (net st))) ByRefresh c in
  refresh_token send st
  = match refreshed (fst (send c (net st))) with
    | Return t => (Return tt, with_token (Some t) st1)
    | Raise e => (Raise e, st1)
    end.
Proof.
  intros Htok c st1. subst c st1.
  unfold refresh_token, bind, self_api_server, self_token. rewrite Htok.
  unfold requests_post, transport, refresh_call, answered.
  destruct (send _ (net st)) as [[r | reason] n']; cbn [fst snd refreshed]; [| reflexivity].
  unfold response_json. destruct (json r) as [[ | | | | | d] |]; reflexivity.
Qed.

Lemma request_call_any_token method url params tok tok' c :
  request_call method url tok params = Some c ->
  exists c', request_call method url tok' params = Some c'
             /\ call_headers c' = bearer tok'.
Proof.
  unfold request_call.
  destruct (String.eqb method "GET"); [eexists; split; reflexivity |].
  destruct (String.eqb method "POST"); [eexists; split; reflexivity |].
  destruct (String.eqb method "DELETE"); [eexists; split; reflexivity |].
  discriminate.
Qed.

Lemma is_error_status_401 r : status_code r = 401 -> is_error_status r = true.
Proof. unfold is_error_status. intros ->. reflexivity. Qed.

(** With a token at hand [_request] is its [try] block. *)
Lemma request_enters st method path params server tok :
  token (self st) = Some tok -> tok <> PNone ->
  _request send method path params server st
  = try_except
      (request_fn send method (request_url (self st) path server) (request_params params))
      (fun err =>
         match err with
         | HTTPError r =>
             if status_code r =? 401 then
               bind (refresh_token send)
                    (fun _ => request_fn send method (request_url (self st) path server)
                                         (request_params params))
             else raise err
         | _ => raise err
         end) st.
Proof.
  intros Htok Hnone. unfold _request, bind at 1 2, self_api_server, self_token.
  rewrite Htok. destruct tok; try reflexivity. contradiction.
Qed.

(** After a first dispatch answered 401, [_request] is [refresh_token]
    followed by one more run of [request_fn]. *)
Lemma request_after_401 st method path params server tok c r n :
  token (self st) = Some tok -> tok <> PNone ->
  request_call method (request_url (self st) path server) tok (request_params params)
    = Some c ->
  send c (net st) = (Responded r, n) ->
  status_code r = 401 ->
  _request send method path params server st
  = match refresh_token send (answered st n ByRequest c) with
    | (Return _, st2) =>
        request_fn send method (request_url (self st) path server)
                   (request_params params) st2
    | (Raise e, st2) => (Raise e, st2)
    end.
Proof.
  intros Htok Hnone Hc Hsend H401.
  rewrite (request_enters _ _ _ _ _ _ Htok Hnone).
  unfold try_except.
  rewrite (request_fn_call _ _ _ _ _ _ Htok Hc), Hsend.
  cbn [fst snd settle]. rewrite (is_error_status_401 _ H401).
  rewrite H401. cbn [Z.eqb Pos.eqb]. unfold bind.
  destruct (refresh_token send (answered st n ByRequest c)) as [[[] | e] st2];
    reflexivity.
Qed.

(** C1 (as amended).  When the first dispatch of a request is answered
    with status 401, [refresh_token] is called exactly once.  If that
    call returns, the request is rebuilt and sent exactly once more and
    the outcome of that second dispatch, success or failure, is the
    outcome of the request: two dispatches, one refresh.  If the refresh
    call raises, its exception is the outcome and the request is not sent
    again: one dispatch, one refresh. *)
Theorem request_401_refreshes_once_then_retries_once
    st method path params server tok c r n :
  token (self st) = Some tok -> tok <> PNone ->
  request_call method (request_url (self st) path server) tok (request_params params)
    = Some c ->
  send c (net st) = (Responded r, n) ->
  status_code r = 401 ->
  let final := snd (_request send method path params server st) in
  calls ByRefresh (log final) = (calls ByRefresh (log st) + 1)%nat /\
  match refresh_token send (answered st n ByRequest c) with
  | (Return _, st2) =>
      _request send method path params server st
      = request_fn send method (request_url (self st) path server)
                   (request_params params) st2
      /\ calls ByRequest (log final) = (calls ByRequest (log st) + 2)%nat
  | (Raise e, st2) =>
      _request send method path params server st = (Raise e, st2)
      /\ calls ByRequest (log final) = (calls ByRequest (log st) + 1)%nat
  end.
Proof.
  intros Htok Hnone Hc Hsend H401 final. subst final.
  rewrite (request_after_401 _ _ _ _ _ _ _ _ _ Htok Hnone Hc Hsend H401).
  set (st1 := answered st n ByRequest c).
  assert (Htok1 : token (self st1) = Some tok) by exact Htok.
  rewrite (refresh_token_call _ _ Htok1).
  set (rc := refresh_call (api_server (self st1)) tok).
  destruct (refreshed (fst (send rc (net st1)))) as [t | e].
  - destruct (request_call_any_token _ _ _ _ t _ Hc) as [c2 [Hc2 _]].
    set (st2 := with_token (Some t) _).
    assert (Htok2 : token (self st2) = Some t) by reflexivity.
    rewrite (request_fn_call _ _ _ _ _ _ Htok2 Hc2).
    cbn [snd log answered with_token st2 st1].
    rewrite !calls_app. cbn. repeat split; lia.
  - cbn [snd log answered st1]. rewrite !calls_app. cbn. repeat split; lia.
Qed.

Lemma request_without_token_fails_fast_aux st method path params server :
  token (self st) = Some PNone ->
  _request send method path params server st = (Raise Unauthenticated, st).
Proof.
  intros Htok. unfold _request, bind, self_api_server, self_token.
  rewrite Htok. reflexivity.
Qed.

(** A request on a client whose token is [None] raises the
    unauthenticated [ValueError] at once: the state, with the remote side
    and the trace of calls in it, is what it was, so nothing was sent. *)
Theorem request_without_token_fails_fast st method path params server :
  token (self st) = Some PNone ->
  _request send method path params server st = (Raise Unauthenticated, st)
  /\ log (snd (_request send method path params server st)) = log st
  /\ net (snd (_request send method path params server st)) = net st.
Proof.
  intros Htok.
  rewrite (request_without_token_fails_fast_aux _ method path params server Htok).
  repeat split.
Qed.

(** C5 (the code at the failing input).  A request on a client without
    a token sends nothing in either of the two states that have none: the
    state, with the remote side and the trace of calls in it, is what it
    was.  The error is the unauthenticated [ValueError] when the attribute
    holds [None]; when the attribute has been deleted, as [logout] leaves
    it, it is [AttributeError], raised by the test [self.token is None]
    itself. *)
Theorem request_with_absent_token_sends_nothing st method path params server :
  token_absent (self st) = true ->
  snd (_request send method path params server st) = st
  /\ fst (_request send method path params server st)
     = match token (self st) with
       | Some _ => Raise Unauthenticated
       | None => Raise (AttributeError "token")
       end.
Proof.
  unfold token_absent. intros Habsent.
  destruct (token (self st)) as [tok |] eqn:Htok.
  - destruct tok; try discriminate.
    rewrite (request_without_token_fails_fast_aux _ method path params server Htok).
    split; reflexivity.
  - unfold _request, bind, self_api_server, self_token. rewrite Htok.
    split; reflexivity.
Qed.

Lemma request_error_other_than_401_is_reraised_aux
    st method path params server tok c r n :
  token (self st) = Some tok -> tok <> PNone ->
  request_call method (request_url (self st) path server) tok (request_params params)
    = Some c ->
  send c (net st) = (Responded r, n) ->
  is_error_status r = true ->
  status_code r <> 401 ->
  _request send method path params server st
  = (Raise (HTTPError r), answered st n ByRequest c).
Proof.
  intros Htok Hnone Hc Hsend Herr H401.
  rewrite (request_enters _ _ _ _ _ _ Htok Hnone). unfold try_except.
  rewrite (request_fn_call _ _ _ _ _ _ Htok Hc), Hsend.
  cbn [fst snd settle]. rewrite Herr.
  destruct (Z.eqb_spec (status_code r) 401); [contradiction | reflexivity].
Qed.

(** The same holds one level up: [graphql] on a client whose token is
    [None] raises the unauthenticated error with nothing sent. *)
Lemma graphql_without_token_fails_fast st query variables :
  token (self st) = Some PNone ->
  graphql send query variables st = (Raise Unauthenticated, st).
Proof.
  intros Htok. unfold graphql, post, bind, self_graphql_server.
  rewrite (request_without_token_fails_fast_aux st "POST" EmptyString
             (Some (graphql_params query variables))
             (Some (graphql_server (self st))) Htok).
  reflexivity.
Qed.

(** C10.  When the first dispatch is answered with an error status other
    than 401, that [HTTPError] is the outcome, [refresh_token] is not
    called and the client object, its token included, is untouched. *)
Theorem request_error_other_than_401_is_reraised
    st method path params server tok c r n :
  token (self st) = Some tok -> tok <> PNone ->
  request_call method (request_url (self st) path server) tok (request_params params)
    = Some c ->
  send c (net st) = (Responded r, n) ->
  is_error_status r = true ->
  status_code r <> 401 ->
  let final := snd (_request send method path params server st) in
  _request send method path params server st
    = (Raise (HTTPError r), answered st n ByRequest c)
  /\ calls ByRefresh (log final) = calls ByRefresh (log st)
  /\ calls ByRequest (log final) = (calls ByRequest (log st) + 1)%nat
  /\ token (self final) = token (self st).
Proof.
  intros Htok Hnone Hc Hsend Herr H401 final. subst final.
  assert (E : _request send method path params server st
              = (Raise (HTTPError r), answered st n ByRequest c)).
  { exact (request_error_other_than_401_is_reraised_aux
             _ _ _ _ _ _ _ _ _ Htok Hnone Hc Hsend Herr H401). }
  rewrite E. cbn [snd log answered self]. rewrite !calls_app. cbn.
  repeat split; lia.
Qed.

Lemma settle_not_unauthenticated rep : settle rep <> Raise Unauthenticated.
Proof.
  destruct rep as [r | reason]; cbn; [destruct (is_error_status r) |]; discriminate.
Qed.

(** C9 (as amended).  When the first dispatch is answered 401 and the body
    of the refresh answer is an object with no token, or a null one, the stored
    token becomes [None] and the request is still sent a second time,
    with the header [Authorization: Bearer None]; what the transport
    makes of that call is the outcome, never the unauthenticated
    error. *)
Theorem retry_after_tokenless_refresh_sends_bearer_None
    st method path params server tok c r n rr n2 d :
  token (self st) = Some tok -> tok <> PNone ->
  request_call method (request_url (self st) path server) tok (request_params params)
    = Some c ->
  send c (net st) = (Responded r, n) ->
  status_code r = 401 ->
  send (refresh_call (api_server (self st)) tok) n = (Responded rr, n2) ->
  json rr = Some (PDict d) ->
  dict_get "token" d = None \/ dict_get "token" d = Some PNone ->
  exists c2,
    request_call method (request_url (self st) path server) PNone (request_params params)
      = Some c2
    /\ call_headers c2 = [("Authorization", "Bearer None")]
    /\ _request send method path params server st
       = (settle (fst (send c2 n2)),
          answered
            (with_token (Some PNone)
               (answered (answered st n ByRequest c) n2 ByRefresh
                  (refresh_call (api_server (self st)) tok)))
            (snd (send c2 n2)) ByRequest c2)
    /\ fst (_request send method path params server st) <> Raise Unauthenticated.
Proof.
  intros Htok Hnone Hc Hsend H401 Hrefresh Hjson Hd.
  destruct (request_call_any_token _ _ _ _ PNone _ Hc) as [c2 [Hc2 Hh]].
  exists c2. split; [exact Hc2 |]. split; [exact Hh |].
  assert (E : _request send method path params server st
              = (settle (fst (send c2 n2)),
                 answered
                   (with_token (Some PNone)
                      (answered (answered st n ByRequest c) n2 ByRefresh
                         (refresh_call (api_server (self st)) tok)))
                   (snd (send c2 n2)) ByRequest c2)).
  { rewrite (request_after_401 _ _ _ _ _ _ _ _ _ Htok Hnone Hc Hsend H401).
    set (st1 := answered st n ByRequest c).
    assert (Htok1 : token (self st1) = Some tok) by exact Htok.
    rewrite (refresh_token_call _ _ Htok1).
    cbn [st1 answered self net]. rewrite Hrefresh. cbn [fst snd refreshed].
    rewrite Hjson.
    assert (Ht : match dict_get "token" d with Some x => x | None => PNone end = PNone)
      by (destruct Hd as [-> | ->]; reflexivity).
    rewrite Ht.
    set (st2 := with_token (Some PNone) _).
    assert (Htok2 : token (self st2) = Some PNone) by reflexivity.
    rewrite (request_fn_call _ _ _ _ _ _ Htok2 Hc2). reflexivity. }
  split; [exact E |]. rewrite E. apply settle_not_unauthenticated.
Qed.

(** [logout] leaves the client without the attribute [token], whether
    it returned or raised. *)
Lemma logout_deletes_token st : token (self (snd (logout st))) = None.
Proof.
  unfold logout, bind, remove_auth_token, del_token.
  destruct (auth_token_file (disk st)); cbn [self with_disk];
    destruct (token (self st)) eqn:E; cbn; try reflexivity; exact E.
Qed.

(** A first [logout] on a client that has the attribute returns. *)
Lemma logout_returns st tok :
  token (self st) = Some tok -> fst (logout st) = Return tt.
Proof.
  intros Htok. unfold logout, bind, remove_auth_token, del_token.
  destruct (auth_token_file (disk st)); cbn [self with_disk]; rewrite Htok; reflexivity.
Qed.

(** C3 (the code at the failing input).  Whatever the client, once
    [logout] has run the attribute [token] is gone, and [logout] called
    again raises [AttributeError] from [del self.token], leaving the
    state as it was. *)
Theorem logout_again_raises_AttributeError st :
  let st1 := snd (logout st) in
  token (self st1) = None
  /\ logout st1 = (Raise (AttributeError "token"), st1).
Proof.
  intros st1. pose proof (logout_deletes_token st) as Hdel. fold st1 in Hdel.
  split; [exact Hdel |].
  assert (Hfile : auth_token_file (disk st1) = None).
  { subst st1. unfold logout, bind, remove_auth_token, del_token.
    destruct (auth_token_file (disk st)) eqn:F; cbn [self with_disk];
      destruct (token (self st)); cbn; try reflexivity; exact F. }
  unfold logout, bind, remove_auth_token, del_token.
  rewrite Hfile, Hdel. reflexivity.
Qed.

(** C4 (the code at the failing input).  After [logout], a request of
    any method, path and parameters raises [AttributeError] when it reads
    [self.token]; it does not reach the test that raises the
    unauthenticated [ValueError], and nothing is sent. *)
Theorem request_after_logout_raises_AttributeError st method path params server :
  let st1 := snd (logout st) in
  _request send method path params server st1 = (Raise (AttributeError "token"), st1)
  /\ fst (_request send method path params server st1) <> Raise Unauthenticated.
Proof.
  intros st1. pose proof (logout_deletes_token st) as Hdel. fold st1 in Hdel.
  assert (E : _request send method path params server st1
              = (Raise (AttributeError "token"), st1)).
  { unfold _request, bind, self_api_server, self_token. rewrite Hdel. reflexivity. }
  rewrite E. split; [reflexivity | discriminate].
Qed.

(** C2 (as amended).  When the answer to [login] is successful and its
    body is an object without a [token] field, the token held in memory
    becomes [None], whatever it was, and the credential file is left as
    it was. *)
Theorem login_without_token_field_stores_None
    st email password account_slug account_id r n d :
  send (login_call config (api_server (self st)) email password account_slug account_id)
       (net st) = (Responded r, n) ->
  ok r = true ->
  json r = Some (PDict d) ->
  dict_get "token" d = None ->
  let final := snd (login send config email password account_slug account_id st) in
  fst (login send config email password account_slug account_id st) = Return tt
  /\ token (self final) = Some PNone
  /\ disk final = disk st.
Proof.
  intros Hsend Hok Hjson Hd final. subst final.
  unfold login, bind, self_api_server, requests_post, transport.
  unfold login_call in Hsend. rewrite Hsend, Hok. cbn [negb].
  unfold response_json. rewrite Hjson. cbn [ret py_get]. rewrite Hd.
  cbn. repeat split.
Qed.

(** C8 (as amended).  When the call of [refresh_token] is answered and
    the body of the answer is an object, whatever the status, the stored
    token becomes the [token] field of that object, or [None] when the
    object has none; the previous token is not kept. *)
Theorem refresh_stores_token_of_object_body st tok r n d :
  token (self st) = Some tok ->
  send (refresh_call (api_server (self st)) tok) (net st) = (Responded r, n) ->
  json r = Some (PDict d) ->
  let final := snd (refresh_token send st) in
  fst (refresh_token send st) = Return tt
  /\ token (self final)
     = Some (match dict_get "token" d with Some t => t | None => PNone end).
Proof.
  intros Htok Hsend Hjson final. subst final.
  rewrite (refresh_token_call _ _ Htok), Hsend. cbn [fst snd refreshed].
  rewrite Hjson. split; reflexivity.
Qed.

(** When the call raises, or the body is not an object, [refresh_token]
    raises and the previous token stays. *)
Lemma refresh_failure_keeps_token st tok e :
  token (self st) = Some tok ->
  refreshed (fst (send (refresh_call (api_server (self st)) tok) (net st))) = Raise e ->
  fst (refresh_token send st) = Raise e
  /\ token (self (snd (refresh_token send st))) = Some tok.
Proof.
  intros Htok He. rewrite (refresh_token_call _ _ Htok), He. split; [reflexivity | exact Htok].
Qed.

(** C6.  When the body [post] decodes is an object with an [errors] key,
    [graphql] raises the [ValueError] that carries the value of that key
    as it is, whatever else the object holds: a [data] key next to it is
    not looked at and nothing is returned. *)
Theorem graphql_errors_take_priority st query variables d errors st' :
  post send EmptyString (Some (graphql_server (self st)))
       (graphql_params query variables) st = (Return (PDict d), st') ->
  dict_get "errors" d = Some errors ->
  graphql send query variables st = (Raise (GraphQLError errors), st').
Proof.
  intros Hpost Herr. unfold graphql, bind at 1 2, self_graphql_server.
  rewrite Hpost. unfold bind, py_in, py_getitem, dict_has, ret, raise.
  rewrite Herr. reflexivity.
Qed.

(** The calls of one request: the first dispatch, then at most the
    refresh and the second dispatch, each dispatch built by
    [request_call] from the same method, URL and parameters. *)
Lemma request_trace st method path params server tok c :
  token (self st) = Some tok -> tok <> PNone ->
  request_call method (request_url (self st) path server) tok (request_params params)
    = Some c ->
  exists rest,
    log (snd (_request send method path params server st))
      = (log st ++ (ByRequest, c) :: rest)%list
    /\ forall c', In (ByRequest, c') rest ->
         exists t, request_call method (request_url (self st) path server) t
                                (request_params params) = Some c'.
Proof.
  intros Htok Hnone Hc.
  destruct (send c (net st)) as [[r | reason] n] eqn:Hsend.
  - destruct (is_error_status r) eqn:Herr.
    + destruct (Z.eqb_spec (status_code r) 401) as [H401 | H401].
      * rewrite (request_after_401 _ _ _ _ _ _ _ _ _ Htok Hnone Hc Hsend H401).
        set (st1 := answered st n ByRequest c).
        assert (Htok1 : token (self st1) = Some tok) by exact Htok.
        rewrite (refresh_token_call _ _ Htok1).
        set (rc := refresh_call (api_server (self st1)) tok).
        destruct (refreshed (fst (send rc (net st1)))) as [t | e].
        -- destruct (request_call_any_token _ _ _ _ t _ Hc) as [c2 [Hc2 _]].
           set (st2 := with_token (Some t) _).
           assert (Htok2 : token (self st2) = Some t) by reflexivity.
           rewrite (request_fn_call _ _ _ _ _ _ Htok2 Hc2).
           exists [(ByRefresh, rc); (ByRequest, c2)]. split.
           ++ cbn [snd log answered with_token st2 st1].
              rewrite <- !app_assoc. reflexivity.
           ++ intros c' [H | [H | []]]; [discriminate |].
              injection H as <-. exists t. exact Hc2.
        -- exists [(ByRefresh, rc)]. split.
           ++ cbn [snd log answered st1]. rewrite <- !app_assoc. reflexivity.
           ++ intros c' [H | []]. discriminate.
      * exists []. split; [| intros c' []].
        rewrite (request_error_other_than_401_is_reraised_aux
                   _ _ _ _ _ _ _ _ _ Htok Hnone Hc Hsend Herr H401).
        reflexivity.
    + exists []. split; [| intros c' []].
      rewrite (request_enters _ _ _ _ _ _ Htok Hnone). unfold try_except.
      rewrite (request_fn_call _ _ _ _ _ _ Htok Hc), Hsend.
      cbn [fst snd settle]. rewrite Herr. reflexivity.
  - exists []. split; [| intros c' []].
    rewrite (request_enters _ _ _ _ _ _ Htok Hnone). unfold try_except.
    rewrite (request_fn_call _ _ _ _ _ _ Htok Hc), Hsend. reflexivity.
Qed.

(** [graphql] changes the state only through the request it makes. *)
Lemma graphql_state st query variables :
  snd (graphql send query variables st)
  = snd (_request send "POST" EmptyString (Some (graphql_params query variables))
                  (Some (graphql_server (self st))) st).
Proof.
  unfold graphql, post, bind, self_graphql_server.
  destruct (_request send "POST" _ _ _ st) as [[r | e] st1]; [| reflexivity].
  cbn [snd]. destruct (negb (String.eqb (text r) EmptyString)).
  - unfold response_json. destruct (json r) as [v |]; [| reflexivity].
    unfold ret, py_in, raise.
    destruct v as [ | b | z | s | l | d]; try reflexivity.
    + destruct (contains "errors" s); reflexivity.
    + destruct (existsb _ l); reflexivity.
    + destruct (dict_has "errors" d) eqn:Hd; cbn [snd].
      * unfold py_getitem, dict_has in *.
        destruct (dict_get "errors" d); [reflexivity | discriminate].
      * unfold py_getattr. cbn [as_nested_dict].
        destruct (dict_get "data" _); reflexivity.
  - reflexivity.
Qed.

(** C7 (as amended).  [graphql] serializes the mapping of variables as a
    whole, once, with [json.dumps]: every dispatch of the execution is a
    POST whose JSON parameters are the query and, under [variables], that
    one string; the values of the variables are not encoded one by one. *)
Theorem graphql_sends_variables_as_one_json_string st query variables tok :
  token (self st) = Some tok -> tok <> PNone ->
  exists c rest,
    log (snd (graphql send query variables st)) = (log st ++ (ByRequest, c) :: rest)%list
    /\ (forall c', c' = c \/ In (ByRequest, c') rest ->
          call_verb c' = POST
          /\ call_json c'
             = Some (PDict [("query", PStr query);
                            ("variables", PStr (json_dumps (PDict variables)))])).
Proof.
  intros Htok Hnone. rewrite graphql_state.
  set (url := request_url (self st) EmptyString (Some (graphql_server (self st)))).
  set (ps := request_params (Some (graphql_params query variables))).
  assert (Hc : request_call "POST" url tok ps
               = Some (mk_call POST url (bearer tok) None None (Some (PDict ps))))
    by reflexivity.
  destruct (request_trace st "POST" EmptyString (Some (graphql_params query variables))
              (Some (graphql_server (self st))) tok _ Htok Hnone Hc)
    as [rest [Hlog Hrest]].
  eexists; exists rest. split; [exact Hlog |].
  intros c' [-> | Hin]; [split; reflexivity |].
  destruct (Hrest _ Hin) as [t Ht]. injection Ht as <-. split; reflexivity.
Qed.

End Properties.

(** * The theorems at concrete runs *)

Import Scenario.

Lemma request_401_refreshes_once_then_retries_once_witness :
  let st := recovered in
  let final := snd (_request play "GET" "flows" None None st) in
  calls ByRefresh (log final) = (calls ByRefresh (log st) + 1)%nat /\
  match refresh_token play
          (answered st [respond_json 200 new_token; Responded flow_list]
                    ByRequest (flows (PStr "old"))) with
  | (Return _, st2) =>
      _request play "GET" "flows" None None st
      = request_fn play "GET" (request_url (self st) "flows" None) (request_params None) st2
      /\ calls ByRequest (log final) = (calls ByRequest (log st) + 2)%nat
  | (Raise e, st2) =>
      _request play "GET" "flows" None None st = (Raise e, st2)
      /\ calls ByRequest (log final) = (calls ByRequest (log st) + 1)%nat
  end.
Proof.
  apply (request_401_refreshes_once_then_retries_once play recovered
           "GET" "flows" None None (PStr "old") (flows (PStr "old")) unauthorized).
  - reflexivity.
  - discriminate.
  - reflexivity.
  - reflexivity.
  - reflexivity.
Defined.

(** C1 as worded fails: the first dispatch is answered 401, the refresh
    call cannot connect, and the request has been sent once, not twice. *)
Lemma refresh_failure_prevents_the_retry :
  first_dispatch_is_401 play "GET" "flows" None None refresh_unreachable
  /\ ~ two_dispatches_one_refresh play "GET" "flows" None None refresh_unreachable.
Proof.
  split.
  - exists (PStr "old"), (flows (PStr "old")), unauthorized, [Failed "ConnectionError"].
    repeat split. discriminate.
  - intros [H _]. vm_compute in H. discriminate.
Qed.

Lemma login_without_token_field_stores_None_witness :
  let st := login_no_token in
  let final := snd (login play no_config None None None None st) in
  fst (login play no_config None None None None st) = Return tt
  /\ token (self final) = Some PNone
  /\ disk final = disk st.
Proof.
  apply (login_without_token_field_stores_None play no_config login_no_token
           None None None None
           (mk_response 200 (json_dumps no_token) (Some no_token)) []
           [("message", PStr "expired")]).
  - reflexivity.
  - reflexivity.
  - reflexivity.
  - reflexivity.
Defined.

(** C2 as worded fails: the answer to [login] is successful and has no
    token, and the token [old] held in memory has become [None]. *)
Lemma login_without_token_field_drops_the_token :
  login_answer_lacks_token play no_config None None None None login_no_token
  /\ ~ login_keeps_token play no_config None None None None login_no_token.
Proof.
  split.
  - exists (mk_response 200 (json_dumps no_token) (Some no_token)), [],
      [("message", PStr "expired")].
    repeat split.
  - intros [H _]. vm_compute in H. discriminate.
Qed.

Lemma request_without_token_fails_fast_witness :
  let st := start (Some PNone) None [Responded flow_list] in
  _request play "GET" "flows" None None st = (Raise Unauthenticated, st)
  /\ log (snd (_request play "GET" "flows" None None st)) = log st
  /\ net (snd (_request play "GET" "flows" None None st)) = net st.
Proof.
  apply (request_without_token_fails_fast play
           (start (Some PNone) None [Responded flow_list]) "GET" "flows" None None).
  reflexivity.
Defined.

Lemma graphql_errors_take_priority_witness :
  graphql play "query { flow }" [] graphql_failing
  = (Raise (GraphQLError (PList [PStr "boom"])),
     answered graphql_failing []
       ByRequest
       (graphql_call (graphql_params "query { flow }" []))).
Proof.
  apply (graphql_errors_take_priority play graphql_failing "query { flow }" []
           [("data", PDict [("flow", PNone)]); ("errors", PList [PStr "boom"])]).
  - reflexivity.
  - reflexivity.
Defined.

Lemma graphql_sends_variables_as_one_json_string_witness :
  exists c rest,
    log (snd (graphql play "query { flow }" [("n", PInt 1)] graphql_failing))
    = (log graphql_failing ++ (ByRequest, c) :: rest)%list
    /\ (forall c', c' = c \/ In (ByRequest, c') rest ->
          call_verb c' = POST
          /\ call_json c'
             = Some (PDict [("query", PStr "query { flow }");
                            ("variables", PStr (json_dumps (PDict [("n", PInt 1)])))])).
Proof.
  apply (graphql_sends_variables_as_one_json_string play graphql_failing
           "query { flow }" [("n", PInt 1)] (PStr "old")).
  - reflexivity.
  - discriminate.
Defined.

(** C7 as worded fails: for the variables [{n: 1}] the field sent is the
    serialization of the mapping, in which [n] is the number 1; it is
    neither a string of string-encoded values nor a mapping of them. *)
Lemma graphql_variables_are_not_encoded_one_by_one :
  let sent := dict_get "variables" (graphql_params "query { flow }" [("n", PInt 1)]) in
  map (fun ev => call_json (snd ev))
      (log (snd (graphql play "query { flow }" [("n", PInt 1)] graphql_failing)))
    = [Some (PDict (graphql_params "query { flow }" [("n", PInt 1)]))]
  /\ sent = Some (PStr (json_dumps (PDict [("n", PInt 1)])))
  /\ sent <> Some (spec_variables_field [("n", PInt 1)])
  /\ sent <> Some (PDict (each_value_serialized [("n", PInt 1)])).
Proof.
  repeat split.
  - intros H. vm_compute in H. discriminate.
  - intros H. vm_compute in H. discriminate.
Qed.

Lemma refresh_stores_token_of_object_body_witness :
  let final := snd (refresh_token play refresh_ok) in
  fst (refresh_token play refresh_ok) = Return tt
  /\ token (self final)
     = Some (match dict_get "token" [("token", PStr "new")] with
             | Some t => t
             | None => PNone
             end).
Proof.
  apply (refresh_stores_token_of_object_body play refresh_ok (PStr "old")
           (mk_response 200 (json_dumps new_token) (Some new_token)) []).
  - reflexivity.
  - reflexivity.
  - reflexivity.
Defined.

(** C8 as worded fails: the answer to the refresh call has a body that is
    not JSON, so it provides no token, and the stored token is still
    [old]. *)
Lemma refresh_with_undecodable_body_keeps_the_token :
  ~ refresh_stores_provided_token play refresh_not_json.
Proof.
  intros H. specialize (H (PStr "old") eq_refl). vm_compute in H. discriminate.
Qed.

Lemma retry_after_tokenless_refresh_sends_bearer_None_witness :
  let st := refresh_without_token in
  exists c2,
    request_call "GET" (request_url (self st) "flows" None) PNone (request_params None)
      = Some c2
    /\ call_headers c2 = [("Authorization", "Bearer None")]
    /\ _request play "GET" "flows" None None st
       = (settle (fst (play c2 [Responded unauthorized])),
          answered
            (with_token (Some PNone)
               (answered
                  (answered st [respond_json 401 no_token; Responded unauthorized]
                            ByRequest (flows (PStr "old")))
                  [Responded unauthorized] ByRefresh
                  (refresh_call (api_server (self st)) (PStr "old"))))
            (snd (play c2 [Responded unauthorized])) ByRequest c2)
    /\ fst (_request play "GET" "flows" None None st) <> Raise Unauthenticated.
Proof.
  apply (retry_after_tokenless_refresh_sends_bearer_None play refresh_without_token
           "GET" "flows" None None (PStr "old") (flows (PStr "old")) unauthorized
           [respond_json 401 no_token; Responded unauthorized]
           (mk_response 401 (json_dumps no_token) (Some no_token))
           [Responded unauthorized] [("message", PStr "expired")]).
  - reflexivity.
  - discriminate.
  - reflexivity.
  - reflexivity.
  - reflexivity.
  - reflexivity.
  - reflexivity.
  - left. reflexivity.
Defined.

Lemma request_with_absent_token_sends_nothing_witness :
  snd (_request play "GET" "flows" None None Scenario2.after_logout)
    = Scenario2.after_logout
  /\ fst (_request play "GET" "flows" None None Scenario2.after_logout)
     = match token (self Scenario2.after_logout) with
       | Some _ => Raise Unauthenticated
       | None => Raise (AttributeError "token")
       end.
Proof.
  apply (request_with_absent_token_sends_nothing play Scenario2.after_logout
           "GET" "flows" None None).
  reflexivity.
Defined.

(** C9 as worded fails for answers to the refresh call that lack a usable
    token in another way.  A body that is not JSON: [refresh_token] raises,
    the request is not sent again.  A token that is the empty string: the
    request is sent again with the header [Authorization: Bearer ] and no
    [None] in it. *)
Lemma tokenless_refresh_need_not_send_bearer_None :
  (refresh_answer_lacks_usable_token play "GET" "flows" None None
     Scenario2.refresh_answer_not_json
   /\ ~ retry_carries_bearer_None play "GET" "flows" None None
         Scenario2.refresh_answer_not_json)
  /\ (refresh_answer_lacks_usable_token play "GET" "flows" None None
        Scenario2.refresh_answer_empty_token
      /\ ~ retry_carries_bearer_None play "GET" "flows" None None
            Scenario2.refresh_answer_empty_token).
Proof.
  split; split.
  - exists (PStr "old"), (flows (PStr "old")), unauthorized,
      [Responded unauthorized; Responded flow_list].
    repeat split. discriminate.
  - intros [_ H]. vm_compute in H. discriminate.
  - exists (PStr "old"), (flows (PStr "old")), unauthorized,
      [respond_json 200 Scenario2.empty_string_token; Responded flow_list].
    repeat split. discriminate.
  - intros [H _]. vm_compute in H. discriminate.
Qed.

Lemma request_error_other_than_401_is_reraised_witness :
  let st := failing in
  let final := snd (_request play "GET" "flows" None None st) in
  _request play "GET" "flows" None None st
    = (Raise (HTTPError server_error), answered st [] ByRequest (flows (PStr "old")))
  /\ calls ByRefresh (log final) = calls ByRefresh (log st)
  /\ calls ByRequest (log final) = (calls ByRequest (log st) + 1)%nat
  /\ token (self final) = token (self st).
Proof.
  apply (request_error_other_than_401_is_reraised play failing
           "GET" "flows" None None (PStr "old") (flows (PStr "old")) server_error []).
  - reflexivity.
  - discriminate.
  - reflexivity.
  - reflexivity.
  - reflexivity.
  - discriminate.
Defined.

(** * Concrete runs *)

Example json_dumps_run :
  json_dumps (PDict [("n", PInt 1); ("s", PStr "a/b"); ("l", PList [PNone; PBool true])])
  = "{" ++ json_quote "n" ++ ": 1, " ++ json_quote "s" ++ ": " ++ json_quote "a/b"
        ++ ", " ++ json_quote "l" ++ ": [null, true]}".
Proof. reflexivity. Qed.

Example py_str_run :
  py_str PNone = "None" /\ py_str (PStr "tok") = "tok"
  /\ py_str (PList [PStr "a"; PInt (-3)]) = "['a', -3]".
Proof. repeat split. Qed.

Example request_url_run :
  request_url (client_with None) "//flows/" None = "https://api.prefect.io/flows"
  /\ request_url (client_with None) EmptyString (Some "https://api.prefect.io/graphql/")
     = "https://api.prefect.io/graphql"
  /\ os_path_join "https://api.prefect.io" "login" = "https://api.prefect.io/login".
Proof. repeat split. Qed.

(** The recovered run in full: old token, refresh, new token. *)
Example recovered_run :
  _request play "GET" "flows" None None recovered
  = (Return flow_list,
     mk_state (client_with (Some (PStr "new"))) (mk_disk true (Some "old")) []
       [(ByRequest, flows (PStr "old")); (ByRefresh, refresh_old);
        (ByRequest, flows (PStr "new"))]).
Proof. reflexivity. Qed.

(** A second 401 after the refresh is the outcome; nothing more is sent. *)
Example second_401_run :
  _request play "GET" "flows" None None refresh_without_token
  = (Raise (HTTPError unauthorized),
     mk_state (client_with (Some PNone)) (mk_disk true (Some "old")) []
       [(ByRequest, flows (PStr "old")); (ByRefresh, refresh_old);
        (ByRequest, flows PNone)]).
Proof. reflexivity. Qed.

(** A method other than GET, POST and DELETE is refused with nothing sent. *)
Example invalid_method_run :
  _request play "PUT" "flows" None None (logged_in [Responded flow_list])
  = (Raise (InvalidMethod "PUT"), logged_in [Responded flow_list]).
Proof. reflexivity. Qed.

(** [Client(token="old")], [logout()], [logout()]. *)
Example logout_twice_run :
  logout (logged_in [])
  = (Return tt, mk_state (client_with None) (mk_disk true None) [] [])
  /\ logout (snd (logout (logged_in [])))
     = (Raise (AttributeError "token"),
        mk_state (client_with None) (mk_disk true None) [] []).
Proof. split; reflexivity. Qed.

(** [Client(token="old")], [logout()], then a GET. *)
Example request_after_logout_run :
  _request play "GET" "flows" None None (snd (logout (logged_in [Responded flow_list])))
  = (Raise (AttributeError "token"),
     mk_state (client_with None) (mk_disk true None) [Responded flow_list] []).
Proof. reflexivity. Qed.

(** A login that brings a token stores it in memory and in the file. *)
Example login_run :
  login play no_config None None None None (start (Some PNone) None [respond_json 200 new_token])
  = (Return tt,
     mk_state (client_with (Some (PStr "new"))) (mk_disk true (Some "new")) []
       [(ByLogin, login_call no_config "https://api.prefect.io" None None None None)]).
Proof. reflexivity. Qed.

(** A client built with no token argument, no configured token and no
    credential file holds [None] as its token. *)
Example init_run :
  __init__ no_config None (mk_disk false None)
  = Return (mk_client "https://api.prefect.io" "https://api.prefect.io" (Some PNone)).
Proof. reflexivity. Qed.

(** * Further properties of the methods *)

Section Coverage.

Context {Net : Type}.
Variable send : http_call -> Net -> reply * Net.
Variable config : Config.

Implicit Types (st : State Net) (tok : pyval) (r : Response) (n : Net).

Lemma offline_frame_refl st : offline_frame st st.
Proof. repeat split. auto. Qed.

Lemma offline_frame_trans st1 st2 st3 :
  offline_frame st1 st2 -> offline_frame st2 st3 -> offline_frame st1 st3.
Proof.
  intros (D1 & A1 & G1 & T1) (D2 & A2 & G2 & T2). repeat split.
  - congruence.
  - congruence.
  - congruence.
  - auto.
Qed.

Lemma offline_bind {A B} (c : M Net A) (k : A -> M Net B) :
  (forall st, offline_frame st (snd (c st))) ->
  (forall a st, offline_frame st (snd (k a st))) ->
  forall st, offline_frame st (snd (bind c k st)).
Proof.
  intros Hc Hk st. unfold bind. specialize (Hc st).
  destruct (c st) as [[a | e] st1]; cbn [snd] in *; [| exact Hc].
  eapply offline_frame_trans; [exact Hc | apply Hk].
Qed.

Lemma offline_try_except {A} (body : M Net A) (handler : exn -> M Net A) :
  (forall st, offline_frame st (snd (body st))) ->
  (forall e st, offline_frame st (snd (handler e st))) ->
  forall st, offline_frame st (snd (try_except body handler st)).
Proof.
  intros Hb Hh st. unfold try_except. specialize (Hb st).
  destruct (body st) as [[a | e] st1]; cbn [snd] in *; [exact Hb |].
  eapply offline_frame_trans; [exact Hb | apply Hh].
Qed.

Lemma offline_transport o c st : offline_frame st (snd (transport send o c st)).
Proof.
  unfold transport. destruct (send c (net st)) as [[r | reason] n];
    cbn; repeat split; auto.
Qed.

Lemma offline_self_token st : offline_frame st (snd (self_token st)).
Proof.
  unfold self_token. destruct (token (self st)); apply offline_frame_refl.
Qed.

Lemma offline_set_token v st : offline_frame st (snd (set_token v st)).
Proof. cbn. repeat split. discriminate. Qed.

Lemma offline_raise_for_status r st : offline_frame st (snd (raise_for_status r st)).
Proof.
  unfold raise_for_status. destruct (is_error_status r); apply offline_frame_refl.
Qed.

Lemma offline_response_json r st : offline_frame st (snd (response_json r st)).
Proof. unfold response_json. destruct (json r); apply offline_frame_refl. Qed.

Lemma offline_py_get v key st : offline_frame st (snd (py_get v key st)).
Proof. destruct v; apply offline_frame_refl. Qed.

Lemma offline_refresh_token st : offline_frame st (snd (refresh_token send st)).
Proof.
  revert st. unfold refresh_token.
  apply offline_bind; [intros st; apply offline_frame_refl | intros api].
  apply offline_bind; [apply offline_self_token | intros tok].
  apply offline_bind; [intros st; apply offline_transport | intros r].
  apply offline_bind; [apply offline_response_json | intros body].
  apply offline_bind; [apply offline_py_get | intros t].
  apply offline_set_token.
Qed.

Lemma offline_request_fn method url params st :
  offline_frame st (snd (request_fn send method url params st)).
Proof.
  revert st. unfold request_fn.
  apply offline_bind; [apply offline_self_token | intros tok].
  apply offline_bind.
  - intros st. unfold requests_get, requests_post, requests_delete.
    destruct (String.eqb method "GET"); [apply offline_transport |].
    destruct (String.eqb method "POST"); [apply offline_transport |].
    destruct (String.eqb method "DELETE"); [apply offline_transport |].
    apply offline_frame_refl.
  - intros r. apply offline_bind; [apply offline_raise_for_status |].
    intros _ st. apply offline_frame_refl.
Qed.

(** X1.  Whatever the client, the transport and the arguments, [_request]
    leaves the credential file and the two server addresses as they were,
    and a client that had the attribute [token] still has it. *)
Theorem request_is_offline_frame st method path params server :
  offline_frame st (snd (_request send method path params server st)).
Proof.
  revert st. unfold _request.
  apply offline_bind; [intros st; apply offline_frame_refl | intros api].
  apply offline_bind; [apply offline_self_token | intros tok].
  assert (H : forall st, offline_frame st (snd (
     try_except (request_fn send method
                   (rstrip_slash (os_path_join
                      (match server with Some s => s | None => api end)
                      (lstrip_slash path)))
                   (match params with Some d => d | None => [] end))
       (fun err =>
          match err with
          | HTTPError r =>
              if status_code r =? 401 then
                bind (refresh_token send)
                     (fun _ => request_fn send method
                        (rstrip_slash (os_path_join
                           (match server with Some s => s | None => api end)
                           (lstrip_slash path)))
                        (match params with Some d => d | None => [] end))
              else raise err
          | _ => raise err
          end) st))).
  { apply offline_try_except; [intros st; apply offline_request_fn |].
    intros e st. destruct e; try apply offline_frame_refl.
    destruct (status_code response =? 401); [| apply offline_frame_refl].
    revert st. apply offline_bind; [apply offline_refresh_token |].
    intros _ st. apply offline_request_fn. }
  intros st. destruct tok; try apply H. apply offline_frame_refl.
Qed.

(** Every way [_request] can end, with the state it ends in: nothing
    sent; one dispatch; one dispatch and a refresh that raised; one
    dispatch, a refresh that returned [t], and the second dispatch. *)
Lemma request_cases st method path params server :
  let final := snd (_request send method path params server st) in
  final = st
  \/ exists tok c,
       token (self st) = Some tok /\ tok <> PNone
       /\ request_call method (request_url (self st) path server) tok
                       (request_params params) = Some c
       /\ let n := snd (send c (net st)) in
          let rc := refresh_call (api_server (self st)) tok in
          let st1 := answered st n ByRequest c in
          let st2 := answered st1 (snd (send rc n)) ByRefresh rc in
          final = st1
          \/ (final = st2 /\ exists e, refreshed (fst (send rc n)) = Raise e)
          \/ exists t c2,
               refreshed (fst (send rc n)) = Return t
               /\ request_call method (request_url (self st) path server) t
                               (request_params params) = Some c2
               /\ final = answered (with_token (Some t) st2)
                                   (snd (send c2 (snd (send rc n)))) ByRequest c2.
Proof.
  intros final. subst final.
  destruct (token (self st)) as [tok |] eqn:Htok.
  2:{ left. unfold _request, bind, self_api_server, self_token. rewrite Htok. reflexivity. }
  destruct tok as [ | b | z | s | l | d] eqn:Etok.
  1:{ left. rewrite (request_without_token_fails_fast_aux send st _ _ _ _ Htok). reflexivity. }
  all: rewrite <- Etok in *; assert (Hnone : tok <> PNone) by (subst tok; discriminate);
    clear Etok;
    destruct (request_call method (request_url (self st) path server) tok
                (request_params params)) as [c |] eqn:Hc.
  all: try (left; rewrite (request_enters send _ _ _ _ _ _ Htok Hnone); unfold try_except;
            rewrite (request_fn_invalid send _ _ _ _ _ Htok Hc); reflexivity).
  all: right; exists tok, c; split; [first [exact Htok | reflexivity] |]; split; [exact Hnone |];
    split; [first [exact Hc | reflexivity] |]; cbv zeta;
    destruct (send c (net st)) as [[r | reason] n] eqn:Hsend; cbn [snd].
  all: try (left; rewrite (request_enters send _ _ _ _ _ _ Htok Hnone); unfold try_except;
            rewrite (request_fn_call send _ _ _ _ _ _ Htok Hc), Hsend; reflexivity).
  all: destruct (is_error_status r) eqn:Herr.
  all: try (left; rewrite (request_enters send _ _ _ _ _ _ Htok Hnone); unfold try_except;
            rewrite (request_fn_call send _ _ _ _ _ _ Htok Hc), Hsend;
            cbn [fst snd settle]; rewrite Herr; reflexivity).
  all: destruct (Z.eqb_spec (status_code r) 401) as [H401 | H401].
  all: try (left;
            rewrite (request_error_other_than_401_is_reraised_aux send
                       _ _ _ _ _ _ _ _ _ Htok Hnone Hc Hsend Herr H401); reflexivity).
  all: right; rewrite (request_after_401 send _ _ _ _ _ _ _ _ _ Htok Hnone Hc Hsend H401);
    rewrite (refresh_token_call send (answered st n ByRequest c) tok Htok);
    cbn [answered self net];
    destruct (refreshed (fst (send (refresh_call (api_server (self st)) tok) n)))
      as [t | e] eqn:Hr.
  all: try (left; split; [reflexivity | exists e; reflexivity]).
  all: right; destruct (request_call_any_token _ _ _ _ t _ Hc) as [c2 [Hc2 _]];
    exists t, c2; split; [reflexivity |]; split; [exact Hc2 |];
    match goal with
    | |- snd (request_fn _ _ _ _ ?s) = _ =>
        rewrite (request_fn_call send s _ _ _ t c2 eq_refl Hc2)
    end; reflexivity.
Qed.

Lemma request_success_is_returned_aux st method path params server tok c r n :
  token (self st) = Some tok -> tok <> PNone ->
  request_call method (request_url (self st) path server) tok (request_params params)
    = Some c ->
  send c (net st) = (Responded r, n) ->
  is_error_status r = false ->
  _request send method path params server st = (Return r, answered st n ByRequest c).
Proof.
  intros Htok Hnone Hc Hsend Hok.
  rewrite (request_enters send _ _ _ _ _ _ Htok Hnone). unfold try_except.
  rewrite (request_fn_call send _ _ _ _ _ _ Htok Hc), Hsend.
  cbn [fst snd settle]. rewrite Hok. reflexivity.
Qed.

(** X2.  A first dispatch answered with a status outside 400..599 is
    the result of the request: the response is returned as it is, after
    exactly that one call, with the client untouched. *)
Theorem request_success_is_returned st method path params server tok c r n :
  token (self st) = Some tok -> tok <> PNone ->
  request_call method (request_url (self st) path server) tok (request_params params)
    = Some c ->
  send c (net st) = (Responded r, n) ->
  is_error_status r = false ->
  _request send method path params server st = (Return r, answered st n ByRequest c).
Proof.
  intros Htok Hnone Hc Hsend Hok.
  rewrite (request_enters send _ _ _ _ _ _ Htok Hnone). unfold try_except.
  rewrite (request_fn_call send _ _ _ _ _ _ Htok Hc), Hsend.
  cbn [fst snd settle]. rewrite Hok. reflexivity.
Qed.

(** X3.  When the transport itself raises on the first dispatch
    (connection error, timeout), that exception is the outcome: it is not
    an [HTTPError], so there is no refresh and no second dispatch. *)
Theorem request_transport_failure_propagates st method path params server tok c reason n :
  token (self st) = Some tok -> tok <> PNone ->
  request_call method (request_url (self st) path server) tok (request_params params)
    = Some c ->
  send c (net st) = (Failed reason, n) ->
  _request send method path params server st
  = (Raise (RequestException reason), answered st n ByRequest c).
Proof.
  intros Htok Hnone Hc Hsend.
  rewrite (request_enters send _ _ _ _ _ _ Htok Hnone). unfold try_except.
  rewrite (request_fn_call send _ _ _ _ _ _ Htok Hc), Hsend. reflexivity.
Qed.

Lemma request_call_unknown method url tok params :
  method <> "GET" -> method <> "POST" -> method <> "DELETE" ->
  request_call method url tok params = None.
Proof.
  intros HG HP HD. unfold request_call.
  apply String.eqb_neq in HG, HP, HD. rewrite HG, HP, HD. reflexivity.
Qed.

(** X4.  With a usable token, a method other than the exact strings GET,
    POST and DELETE raises the invalid-method [ValueError] naming it, and
    the state is what it was: nothing is sent. *)
Theorem request_invalid_method_sends_nothing st method path params server tok :
  token (self st) = Some tok -> tok <> PNone ->
  method <> "GET" -> method <> "POST" -> method <> "DELETE" ->
  _request send method path params server st = (Raise (InvalidMethod method), st).
Proof.
  intros Htok Hnone HG HP HD.
  rewrite (request_enters send _ _ _ _ _ _ Htok Hnone). unfold try_except.
  rewrite (request_fn_invalid send _ _ _ _ _ Htok
             (request_call_unknown _ _ _ _ HG HP HD)).
  reflexivity.
Qed.

(** X5.  Whatever the client, the arguments and the answers of the remote
    side, one request adds at most two dispatches and at most one refresh
    call to the trace, and no login call. *)
Theorem request_calls_bounded st method path params server :
  let final := snd (_request send method path params server st) in
  (calls ByRequest (log final) <= calls ByRequest (log st) + 2)%nat
  /\ (calls ByRefresh (log final) <= calls ByRefresh (log st) + 1)%nat
  /\ calls ByLogin (log final) = calls ByLogin (log st).
Proof.
  intros final. subst final.
  destruct (request_cases st method path params server)
    as [-> | (tok & c & _ & _ & _ & [-> | [[-> _] | (t & c2 & _ & _ & ->)]])];
    cbn [log answered with_token]; rewrite ?calls_app; cbn; lia.
Qed.

Lemma rstrip_slash_canonical s : canonical (rstrip_slash s).
Proof.
  unfold canonical. induction s as [| a rest IH]; [reflexivity |].
  cbn [rstrip_slash]. destruct (rstrip_slash rest) as [| b r'] eqn:E.
  - destruct (Ascii.eqb a "/") eqn:Ea; [reflexivity |]. cbn. exact Ea.
  - exact IH.
Qed.

Lemma request_call_same_shape method url params tok tok' c c' :
  request_call method url tok params = Some c ->
  request_call method url tok' params = Some c' ->
  call_verb c' = call_verb c /\ call_url c' = call_url c /\ call_url c = url
  /\ call_params c' = call_params c /\ call_json c' = call_json c
  /\ call_auth c' = None /\ call_headers c' = bearer tok'.
Proof.
  unfold request_call.
  destruct (String.eqb method "GET");
    [| destruct (String.eqb method "POST");
       [| destruct (String.eqb method "DELETE"); [| discriminate]]];
    intros H H'; injection H as <-; injection H' as <-; repeat split.
Qed.

(** X6.  All dispatches of one request go to the same URL, the server and
    the path joined with the slashes at the end removed, with the same
    verb, query parameters and JSON body; the retry differs from the first
    dispatch by its [Authorization] header at most. *)
Theorem request_dispatches_share_canonical_url st method path params server :
  exists new,
    grows_by st (snd (_request send method path params server st)) new
    /\ canonical (request_url (self st) path server)
    /\ forall c1 c2, In (ByRequest, c1) new -> In (ByRequest, c2) new ->
         call_url c1 = request_url (self st) path server
         /\ call_verb c2 = call_verb c1 /\ call_url c2 = call_url c1
         /\ call_params c2 = call_params c1 /\ call_json c2 = call_json c1.
Proof.
  assert (Hcan : canonical (request_url (self st) path server))
    by apply rstrip_slash_canonical.
  destruct (request_cases st method path params server)
    as [-> | (tok & c & _ & _ & Hc & [-> | [[-> _] | (t & c2 & _ & Hc2 & ->)]])].
  - exists []. split; [unfold grows_by; rewrite app_nil_r; reflexivity |].
    split; [exact Hcan |]. intros c1 c2 [].
  - exists [(ByRequest, c)]. split; [reflexivity |]. split; [exact Hcan |].
    destruct (request_call_same_shape _ _ _ _ tok _ _ Hc Hc) as (_ & _ & Hu & _).
    intros c1 c2 [H1 | []] [H2 | []]. injection H1 as <-. injection H2 as <-.
    repeat split. exact Hu.
  - eexists [(ByRequest, c); (ByRefresh, _)]. split.
    + unfold grows_by. cbn [log answered]. rewrite <- app_assoc. reflexivity.
    + split; [exact Hcan |].
      destruct (request_call_same_shape _ _ _ _ tok _ _ Hc Hc) as (_ & _ & Hu & _).
      intros c1 c2 [H1 | [H1 | []]] [H2 | [H2 | []]]; try discriminate.
      injection H1 as <-. injection H2 as <-. repeat split. exact Hu.
  - eexists [(ByRequest, c); (ByRefresh, _); (ByRequest, c2)]. split.
    + unfold grows_by. cbn [log answered with_token]. rewrite <- !app_assoc. reflexivity.
    + split; [exact Hcan |].
      destruct (request_call_same_shape _ _ _ _ t _ _ Hc Hc2) as (Hv & Hurl & Hu & Hp & Hj & _).
      intros c1 c2' [H1 | [H1 | [H1 | []]]] [H2 | [H2 | [H2 | []]]]; try discriminate;
        injection H1 as <-; injection H2 as <-; repeat split; congruence.
Qed.

(** X7.  The stored token is changed by a request only when a refresh
    call was made and returned: otherwise the client is the one it was, and
    then the new token is the one extracted from the refresh answer. *)
Theorem request_changes_token_only_by_refresh st method path params server :
  let final := snd (_request send method path params server st) in
  self final = self st
  \/ (calls ByRefresh (log final) = (calls ByRefresh (log st) + 1)%nat
      /\ exists tok c t,
           token (self st) = Some tok
           /\ request_call method (request_url (self st) path server) tok
                           (request_params params) = Some c
           /\ refreshed (fst (send (refresh_call (api_server (self st)) tok)
                                   (snd (send c (net st))))) = Return t
           /\ token (self final) = Some t).
Proof.
  intros final. subst final.
  destruct (request_cases st method path params server)
    as [-> | (tok & c & Htok & _ & Hc & [-> | [[-> _] | (t & c2 & Ht & _ & ->)]])];
    try (left; reflexivity).
  right. split.
  - cbn [log answered with_token]. rewrite !calls_app. cbn. lia.
  - exists tok, c, t. repeat split; assumption.
Qed.

(** The call [post] dispatches. *)
Lemma post_call st path server (params : dict) tok :
  request_call "POST" (request_url (self st) path server) tok
               (request_params (Some params))
  = Some (mk_call POST (request_url (self st) path server) (bearer tok) None None
                  (Some (PDict params))).
Proof. reflexivity. Qed.

(** What [post] makes of a successful answer to its dispatch. *)
Lemma post_after_success st path server (params : dict) tok r n :
  token (self st) = Some tok -> tok <> PNone ->
  send (mk_call POST (request_url (self st) path server) (bearer tok) None None
                (Some (PDict params))) (net st) = (Responded r, n) ->
  is_error_status r = false ->
  post send path server params st
  = (if String.eqb (text r) EmptyString then Return (PDict [])
     else match json r with Some v => Return v | None => Raise JSONDecodeError end,
     answered st n ByRequest
       (mk_call POST (request_url (self st) path server) (bearer tok) None None
                (Some (PDict params)))).
Proof.
  intros Htok Hnone Hsend Hok. unfold post, bind.
  rewrite (request_success_is_returned_aux st "POST" path (Some params) server tok _ r n
             Htok Hnone (post_call st path server params tok) Hsend Hok).
  destruct (String.eqb (text r) EmptyString); cbn [negb]; [reflexivity |].
  unfold response_json. destruct (json r); reflexivity.
Qed.

(** X8.  A successful answer with an empty body makes [post] return the
    empty dict without decoding anything: it does not matter that an empty
    body is not JSON. *)
Theorem post_empty_body_gives_empty_dict st path server (params : dict) tok r n :
  token (self st) = Some tok -> tok <> PNone ->
  send (mk_call POST (request_url (self st) path server) (bearer tok) None None
                (Some (PDict params))) (net st) = (Responded r, n) ->
  is_error_status r = false ->
  text r = EmptyString ->
  post send path server params st
  = (Return (PDict []),
     answered st n ByRequest
       (mk_call POST (request_url (self st) path server) (bearer tok) None None
                (Some (PDict params)))).
Proof.
  intros Htok Hnone Hsend Hok Htext.
  rewrite (post_after_success _ _ _ _ _ _ _ Htok Hnone Hsend Hok), Htext. reflexivity.
Qed.

(** X9.  A successful answer with a body makes [post] return what the
    body decodes to, of whatever JSON type, and raise the decoding error
    when the body is not JSON; the call has been made either way. *)
Theorem post_decodes_non_empty_body st path server (params : dict) tok r n :
  token (self st) = Some tok -> tok <> PNone ->
  send (mk_call POST (request_url (self st) path server) (bearer tok) None None
                (Some (PDict params))) (net st) = (Responded r, n) ->
  is_error_status r = false ->
  text r <> EmptyString ->
  post send path server params st
  = (match json r with Some v => Return v | None => Raise JSONDecodeError end,
     answered st n ByRequest
       (mk_call POST (request_url (self st) path server) (bearer tok) None None
                (Some (PDict params)))).
Proof.
  intros Htok Hnone Hsend Hok Htext.
  rewrite (post_after_success _ _ _ _ _ _ _ Htok Hnone Hsend Hok).
  apply String.eqb_neq in Htext. rewrite Htext. reflexivity.
Qed.

Lemma append_empty (s : string) : s ++ EmptyString = s.
Proof. induction s as [| a rest IH]; cbn; [reflexivity | rewrite IH; reflexivity]. Qed.

Lemma rstrip_slash_append_slash (s : string) :
  rstrip_slash (s ++ "/") = rstrip_slash s.
Proof.
  induction s as [| a rest IH]; [reflexivity |].
  cbn [append rstrip_slash]. rewrite IH. reflexivity.
Qed.

(** With an empty path the URL is the server with the slashes at its end
    removed. *)
Lemma request_url_root (cl : Client) (server : string) :
  request_url cl EmptyString (Some server) = rstrip_slash server.
Proof.
  unfold request_url, os_path_join. cbn [lstrip_slash prefix].
  destruct (String.eqb server EmptyString || ends_with_slash server).
  - rewrite append_empty. reflexivity.
  - cbn [append]. apply rstrip_slash_append_slash.
Qed.

(** The pure wrapper changes nothing in a decoded body. *)
Lemma as_nested_dict_id : forall v, as_nested_dict v = v.
Proof.
  fix IH 1. intros [ | b | z | s | l | d]; cbn [as_nested_dict]; try reflexivity.
  - f_equal. induction l as [| x l IHl]; cbn [map]; [reflexivity |].
    rewrite IH, IHl. reflexivity.
  - f_equal. induction d as [| [k x] d IHd]; cbn [map fst snd]; [reflexivity |].
    rewrite IH, IHd. reflexivity.
Qed.

(** X10.  The dispatch of [graphql] is a POST to the GraphQL server of
    the client, trailing slashes removed, not to its API server, carrying
    the stored token as bearer; it is the first call the execution adds to
    the trace. *)
Theorem graphql_posts_to_graphql_server st query variables tok :
  token (self st) = Some tok -> tok <> PNone ->
  exists c rest,
    grows_by st (snd (graphql send query variables st)) ((ByRequest, c) :: rest)
    /\ call_verb c = POST
    /\ call_url c = rstrip_slash (graphql_server (self st))
    /\ call_headers c = [("Authorization", "Bearer " ++ py_str tok)]
    /\ call_auth c = None /\ call_params c = None.
Proof.
  intros Htok Hnone. rewrite graphql_state.
  destruct (request_trace send st "POST" EmptyString
              (Some (graphql_params query variables))
              (Some (graphql_server (self st))) tok _ Htok Hnone eq_refl)
    as [rest [Hlog _]].
  eexists; exists rest. split; [exact Hlog |].
  cbn [call_verb call_url call_headers call_auth call_params].
  rewrite request_url_root. repeat split.
Qed.

(** What [graphql] does once [post] has returned. *)
Lemma graphql_after_post st query variables v st' :
  post send EmptyString (Some (graphql_server (self st)))
       (graphql_params query variables) st = (Return v, st') ->
  graphql send query variables st
  = bind (py_in "errors" v)
         (fun has_errors : bool =>
            if has_errors then
              bind (py_getitem v "errors") (fun errors => raise (GraphQLError errors))
            else py_getattr (as_nested_dict v) "data") st'.
Proof.
  intros Hpost. unfold graphql, bind, self_graphql_server. rewrite Hpost. reflexivity.
Qed.

(** X11.  When the body [post] decodes is an object without an [errors]
    key, [graphql] returns its [data] entry, and raises [AttributeError]
    when there is none, as for the empty dict an empty body gives. *)
Theorem graphql_returns_data_entry st query variables d st' :
  post send EmptyString (Some (graphql_server (self st)))
       (graphql_params query variables) st = (Return (PDict d), st') ->
  dict_get "errors" d = None ->
  graphql send query variables st
  = (match dict_get "data" d with
     | Some v => Return v
     | None => Raise (AttributeError "data")
     end, st').
Proof.
  intros Hpost Herr. rewrite (graphql_after_post _ _ _ _ _ Hpost).
  unfold bind, py_in, dict_has, ret. rewrite Herr.
  rewrite as_nested_dict_id. unfold py_getattr.
  destruct (dict_get "data" d); reflexivity.
Qed.

(** X12.  When the body [post] decodes is JSON but not an object,
    [graphql] never returns: [null], a boolean or a number raises
    [TypeError] at the membership test; a list or a string raises
    [TypeError] at the subscript when it contains [errors], and
    [AttributeError] for [data] otherwise. *)
Theorem graphql_non_object_body_raises st query variables v st' :
  post send EmptyString (Some (graphql_server (self st)))
       (graphql_params query variables) st = (Return v, st') ->
  (forall d, v <> PDict d) ->
  snd (graphql send query variables st) = st'
  /\ match v with
     | PList l =>
         if existsb (fun x => match x with
                              | PStr s => String.eqb s "errors"
                              | _ => false
                              end) l
         then exists msg, fst (graphql send query variables st) = Raise (TypeError msg)
         else fst (graphql send query variables st) = Raise (AttributeError "data")
     | PStr s =>
         if contains "errors" s
         then exists msg, fst (graphql send query variables st) = Raise (TypeError msg)
         else fst (graphql send query variables st) = Raise (AttributeError "data")
     | _ => exists msg, fst (graphql send query variables st) = Raise (TypeError msg)
     end.
Proof.
  intros Hpost Hnd. rewrite (graphql_after_post _ _ _ _ _ Hpost).
  unfold bind, py_in, ret, raise.
  destruct v as [ | b | z | s | l | d]; cbn [fst snd].
  - split; [reflexivity | eexists; reflexivity].
  - split; [reflexivity | eexists; reflexivity].
  - split; [reflexivity | eexists; reflexivity].
  - destruct (contains "errors" s); cbn; (split; [reflexivity |]);
      [eexists; reflexivity | reflexivity].
  - destruct (existsb _ l); cbn; (split; [reflexivity |]);
      [eexists; reflexivity | reflexivity].
  - exfalso. exact (Hnd d eq_refl).
Qed.

(** X13.  [refresh_token] makes exactly one call, a POST to
    [refresh_token] under the API server with the token stored at that
    moment as bearer, whatever that token is; the credential file is not
    written, so after a refresh the file still holds what the last login
    left there. *)
Theorem refresh_sends_stored_token_and_keeps_file st tok :
  token (self st) = Some tok ->
  let final := snd (refresh_token send st) in
  grows_by st final
    [(ByRefresh,
      mk_call POST (os_path_join (api_server (self st)) "refresh_token")
              [("Authorization", "Bearer " ++ py_str tok)] None None None)]
  /\ disk final = disk st
  /\ api_server (self final) = api_server (self st)
  /\ graphql_server (self final) = graphql_server (self st).
Proof.
  intros Htok final. subst final. rewrite (refresh_token_call send _ _ Htok).
  destruct (refreshed _); repeat split.
Qed.

(** X14.  When the refresh call raises, or its answer has a body that is
    not JSON or not an object, [refresh_token] raises that error after the
    one call and the client is exactly the one it was, token included. *)
Theorem refresh_error_leaves_client_untouched st tok e :
  token (self st) = Some tok ->
  refreshed (fst (send (refresh_call (api_server (self st)) tok) (net st))) = Raise e ->
  refresh_token send st
  = (Raise e,
     answered st (snd (send (refresh_call (api_server (self st)) tok) (net st)))
              ByRefresh (refresh_call (api_server (self st)) tok)).
Proof.
  intros Htok He. rewrite (refresh_token_call send _ _ Htok), He. reflexivity.
Qed.

(** X15.  On a client whose attribute [token] has been deleted,
    [refresh_token] raises [AttributeError] while building the header:
    nothing is sent and nothing changes. *)
Theorem refresh_after_logout_sends_nothing st :
  token (self st) = None ->
  refresh_token send st = (Raise (AttributeError "token"), st).
Proof.
  intros Htok. unfold refresh_token, bind, self_api_server, self_token.
  rewrite Htok. reflexivity.
Qed.

(** Every way [login] can end, with the state it ends in. *)
Lemma login_cases st email password account_slug account_id :
  let c := login_call config (api_server (self st)) email password account_slug account_id in
  let st1 := answered st (snd (send c (net st))) ByLogin c in
  login send config email password account_slug account_id st
  = match fst (send c (net st)) with
    | Failed reason => (Raise (RequestException reason), st1)
    | Responded r =>
        if is_error_status r then (Raise LoginFailed, st1)
        else
          match json r with
          | None => (Raise JSONDecodeError, st1)
          | Some (PDict d) =>
              let t := match dict_get "token" d with Some x => x | None => PNone end in
              let st2 := with_token (Some t) st1 in
              if truthy t then
                match t with
                | PStr s => (Return tt, with_disk (mk_disk true (Some s)) st2)
                | _ => (Raise (TypeError "write() argument must be str"),
                        with_disk (mk_disk true (Some EmptyString)) st2)
                end
              else (Return tt, st2)
          | Some _ => (Raise (AttributeError "get"), st1)
          end
    end.
Proof.
  intros c st1. subst c st1.
  unfold login, bind, self_api_server, requests_post, transport, login_call, answered.
  destruct (send _ (net st)) as [[r | reason] n]; cbn [fst snd]; [| reflexivity].
  unfold ok. destruct (is_error_status r); cbn [negb]; [reflexivity |].
  unfold response_json. destruct (json r) as [[ | b | z | s | l | d] |]; try reflexivity.
  cbn [ret py_get].
  set (t := match dict_get "token" d with Some x => x | None => PNone end).
  unfold set_token, self_token. cbn [with_token self token].
  destruct (truthy t) eqn:Ht; [| reflexivity].
  unfold ensure_creds_dir, open_auth_token_w, write_auth_token, with_disk, with_token.
  cbn [disk self net log creds_dir auth_token_file].
  destruct (creds_dir (disk st)) eqn:Hdir;
    cbn [disk self net log creds_dir auth_token_file token];
    rewrite ?Hdir; destruct t; reflexivity.
Qed.

(** X16.  Whatever the client and the answer, [login] makes exactly one
    call: a POST to [login] under the API server with HTTP basic
    credentials and no [Authorization] header, the credentials being the
    arguments or, for an argument that is missing or empty, the configured
    ones.  It never reads the stored token, and the server addresses stay. *)
Theorem login_makes_one_basic_auth_call st email password account_slug account_id :
  let final := snd (login send config email password account_slug account_id st) in
  grows_by st final
    [(ByLogin,
      mk_call POST (os_path_join (api_server (self st)) "login") []
        (Some (or_default email (cfg_email config),
               or_default password (cfg_password config)))
        None
        (Some (PDict [("account_id", of_optional account_id);
                      ("account_slug", of_optional account_slug)])))]
  /\ api_server (self final) = api_server (self st)
  /\ graphql_server (self final) = graphql_server (self st).
Proof.
  intros final. subst final. rewrite login_cases. cbv zeta.
  destruct (fst (send _ (net st))) as [r | reason]; [| repeat split].
  destruct (is_error_status r); [repeat split |].
  destruct (json r) as [[ | b | z | s | l | d] |]; try (repeat split).
  all: destruct (truthy _); [| repeat split].
  all: destruct (match dict_get "token" d with Some x => x | None => PNone end);
    repeat split.
Qed.

(** X17.  A successful answer whose object body holds a non-empty string
    token: the token is stored in memory and written to the credential
    file, replacing what the file held, the directory being created when
    it was missing. *)
Theorem login_stores_and_persists_token
    st email password account_slug account_id r n d t :
  send (login_call config (api_server (self st)) email password account_slug account_id)
       (net st) = (Responded r, n) ->
  is_error_status r = false ->
  json r = Some (PDict d) ->
  dict_get "token" d = Some (PStr t) ->
  t <> EmptyString ->
  let final := snd (login send config email password account_slug account_id st) in
  fst (login send config email password account_slug account_id st) = Return tt
  /\ token (self final) = Some (PStr t)
  /\ disk final = mk_disk true (Some t).
Proof.
  intros Hsend Hok Hjson Hd Ht final. subst final.
  rewrite login_cases. cbv zeta. rewrite Hsend. cbn [fst snd].
  rewrite Hok, Hjson, Hd. cbn [truthy].
  apply String.eqb_neq in Ht. rewrite Ht. cbn. repeat split.
Qed.

(** X18.  An answer with a status in 400..599 makes [login] raise its
    [ValueError] without looking at the body: the stored token and the
    credential file are what they were. *)
Theorem login_rejected_changes_nothing
    st email password account_slug account_id r n :
  send (login_call config (api_server (self st)) email password account_slug account_id)
       (net st) = (Responded r, n) ->
  is_error_status r = true ->
  login send config email password account_slug account_id st
  = (Raise LoginFailed,
     answered st n ByLogin
       (login_call config (api_server (self st)) email password account_slug account_id)).
Proof.
  intros Hsend Herr. rewrite login_cases. cbv zeta. rewrite Hsend. cbn [fst snd].
  rewrite Herr. reflexivity.
Qed.

(** X19.  A successful answer whose [token] is present but false in a
    condition (null, the empty string, zero, false, an empty list or dict):
    that value replaces the token in memory and the credential file is not
    touched. *)
Theorem login_falsy_token_is_not_persisted
    st email password account_slug account_id r n d t :
  send (login_call config (api_server (self st)) email password account_slug account_id)
       (net st) = (Responded r, n) ->
  is_error_status r = false ->
  json r = Some (PDict d) ->
  dict_get "token" d = Some t ->
  truthy t = false ->
  let final := snd (login send config email password account_slug account_id st) in
  fst (login send config email password account_slug account_id st) = Return tt
  /\ token (self final) = Some t
  /\ disk final = disk st.
Proof.
  intros Hsend Hok Hjson Hd Ht final. subst final.
  rewrite login_cases. cbv zeta. rewrite Hsend. cbn [fst snd].
  rewrite Hok, Hjson, Hd, Ht. repeat split.
Qed.

(** X20.  A successful answer whose [token] is true in a condition but
    not a string (a number, a non-empty list): [login] raises [TypeError]
    when writing it; by then the value is the token in memory and the
    credential file has been opened for writing, so it is left empty. *)
Theorem login_non_string_token_empties_file
    st email password account_slug account_id r n d t :
  send (login_call config (api_server (self st)) email password account_slug account_id)
       (net st) = (Responded r, n) ->
  is_error_status r = false ->
  json r = Some (PDict d) ->
  dict_get "token" d = Some t ->
  truthy t = true ->
  (forall s, t <> PStr s) ->
  let final := snd (login send config email password account_slug account_id st) in
  (exists msg, fst (login send config email password account_slug account_id st)
               = Raise (TypeError msg))
  /\ token (self final) = Some t
  /\ disk final = mk_disk true (Some EmptyString).
Proof.
  intros Hsend Hok Hjson Hd Ht Hns final. subst final.
  rewrite login_cases. cbv zeta. rewrite Hsend. cbn [fst snd].
  rewrite Hok, Hjson, Hd, Ht.
  destruct t as [ | b | z | s | l | d']; try (split; [eexists; reflexivity | split; reflexivity]).
  exfalso. exact (Hns s eq_refl).
Qed.

(** X21.  A successful answer whose body is not JSON, or is JSON but not
    an object, makes [login] raise after the call; the client and the
    credential file are what they were. *)
Theorem login_undecodable_body_changes_nothing
    st email password account_slug account_id r n :
  send (login_call config (api_server (self st)) email password account_slug account_id)
       (net st) = (Responded r, n) ->
  is_error_status r = false ->
  (forall d, json r <> Some (PDict d)) ->
  let final := snd (login send config email password account_slug account_id st) in
  (exists e, fst (login send config email password account_slug account_id st) = Raise e
             /\ (e = JSONDecodeError \/ e = AttributeError "get"))
  /\ self final = self st
  /\ disk final = disk st.
Proof.
  intros Hsend Hok Hnd final. subst final.
  rewrite login_cases. cbv zeta. rewrite Hsend. cbn [fst snd]. rewrite Hok.
  destruct (json r) as [[ | b | z | s | l | d] |];
    try (split; [eexists; split; [reflexivity | auto] | split; reflexivity]).
  exfalso. exact (Hnd d eq_refl).
Qed.

Lemma logout_clears_memory_and_file_aux st :
  logout st
  = (match token (self st) with
     | Some _ => Return tt
     | None => Raise (AttributeError "token")
     end,
     mk_state (mk_client (api_server (self st)) (graphql_server (self st)) None)
              (mk_disk (creds_dir (disk st)) None) (net st) (log st)).
Proof.
  destruct st as [[a g t] [cd f] n l].
  unfold logout, bind, remove_auth_token, del_token.
  destruct f, t; reflexivity.
Qed.

(** X22.  [logout] makes no call.  It removes the credential file when
    there is one, deletes the attribute [token] and keeps the rest; it
    raises exactly when the attribute was already gone, and by then the
    file has been removed all the same. *)
Theorem logout_clears_memory_and_file st :
  logout st
  = (match token (self st) with
     | Some _ => Return tt
     | None => Raise (AttributeError "token")
     end,
     mk_state (mk_client (api_server (self st)) (graphql_server (self st)) None)
              (mk_disk (creds_dir (disk st)) None) (net st) (log st)).
Proof.
  destruct st as [[a g t] [cd f] n l].
  unfold logout, bind, remove_auth_token, del_token.
  destruct f, t; reflexivity.
Qed.

(** X23.  [__init__] fails exactly when the configuration has no API
    server or an empty one, with the [ValueError] saying so; a client it
    returns has that non-empty API server, a non-empty GraphQL server and
    the attribute [token], holding [None] or a string. *)
Theorem init_establishes_client_invariants (tok : option string) (d : Disk) :
  match __init__ config tok d with
  | Return c =>
      cfg_api config = Some (api_server c)
      /\ api_server c <> EmptyString
      /\ graphql_server c <> EmptyString
      /\ exists v, token c = Some v /\ (v = PNone \/ exists s, v = PStr s)
  | Raise e =>
      e = ValueError (PStr "Could not determine API server.")
      /\ (cfg_api config = None \/ cfg_api config = Some EmptyString)
  end.
Proof.
  unfold __init__. destruct (cfg_api config) as [[| a api] |]; [auto | | auto].
  repeat split; try discriminate.
  - destruct (cfg_graphql config) as [[| b g] |]; discriminate.
  - eexists. split; [reflexivity |].
    destruct tok as [t |]; [right; eexists; reflexivity |].
    destruct (cfg_auth_token config) as [t |]; [right; eexists; reflexivity |].
    destruct (auth_token_file d) as [t |]; [right; eexists; reflexivity | left; reflexivity].
Qed.


(** X25.  After [logout], a client built anew with no token argument
    under a configuration without a token holds [None], and its requests
    raise the unauthenticated [ValueError] with nothing sent; it is the
    client that logged out that has lost the attribute. *)
Theorem logout_then_new_client_is_unauthenticated
    st api method path params server :
  cfg_api config = Some api -> api <> EmptyString ->
  cfg_auth_token config = None ->
  let st1 := snd (logout st) in
  exists c,
    __init__ config None (disk st1) = Return c
    /\ token c = Some PNone
    /\ _request send method path params server (mk_state c (disk st1) (net st1) (log st1))
       = (Raise Unauthenticated, mk_state c (disk st1) (net st1) (log st1)).
Proof.
  intros Hapi Hne Hcfg st1. subst st1. rewrite logout_clears_memory_and_file_aux.
  cbn [snd disk net log]. unfold __init__. rewrite Hapi, Hcfg.
  destruct api as [| a api']; [contradiction |]. cbn [auth_token_file of_optional].
  eexists. split; [reflexivity |]. split; [reflexivity |].
  apply request_without_token_fails_fast_aux. reflexivity.
Qed.

(** X26.  With [use_local_secrets] being [True], [Secret.get] is a
    lookup in the [_secrets] of the context and nothing else: the value for
    a known name, [None] for an unknown name or when the context has no
    [_secrets], [AttributeError] when [_secrets] is not a dict.  No client
    is built and the world is what it was, whatever the configuration. *)
Theorem secret_local_mode_is_a_lookup
    (context_secrets : option pyval) (name : string) (w : World Net) :
  snd (Secret_get send config (PBool true) context_secrets name w) = w
  /\ fst (Secret_get send config (PBool true) context_secrets name w)
     = match context_secrets with
       | None => Return PNone
       | Some (PDict d) =>
           match dict_get name d with Some v => Return v | None => Return PNone end
       | Some _ => Raise (AttributeError "get")
       end.
Proof.
  unfold Secret_get.
  destruct context_secrets as [[ | b | z | s | l | d] |]; cbn; try (split; reflexivity).
  destruct (dict_get name d); split; reflexivity.
Qed.

(** X27.  With [use_local_secrets] being anything but [True], even a
    value that is true in a condition, [Secret.get] builds a client; when
    neither the configuration nor the credential file has a token, it
    raises the unauthenticated [ValueError] and nothing is sent. *)
Theorem secret_remote_without_token_is_unauthenticated
    (use_local_secrets : pyval) (context_secrets : option pyval) (name : string)
    (w : World Net) (api : string) :
  use_local_secrets <> PBool true ->
  cfg_api config = Some api -> api <> EmptyString ->
  cfg_auth_token config = None ->
  auth_token_file (w_disk w) = None ->
  Secret_get send config use_local_secrets context_secrets name w
  = (Raise Unauthenticated, w).
Proof.
  intros Hlocal Hapi Hne Hcfg Hfile.
  assert (E : __init__ config None (w_disk w)
              = Return (mk_client api
                          (match cfg_graphql config with
                           | Some (String _ _ as g) => g
                           | _ => api
                           end) (Some PNone))).
  { unfold __init__. rewrite Hapi, Hcfg, Hfile.
    destruct api as [| a api']; [contradiction | reflexivity]. }
  assert (R : forall c, token c = Some PNone ->
              (let (o, st) :=
                 bind (graphql send secret_query [("name", PStr name)])
                      (fun data =>
                         bind (py_getattr data "secret")
                              (fun secret => py_getattr secret "value"))
                      (mk_state c (w_disk w) (w_net w) (w_log w)) in
               (o, mk_world (disk st) (net st) (log st)))
              = (Raise Unauthenticated, w)).
  { intros c Hc. unfold bind at 1.
    rewrite (graphql_without_token_fails_fast send
               (mk_state c (w_disk w) (w_net w) (w_log w)) _ _ Hc).
    destruct w; reflexivity. }
  unfold Secret_get. rewrite E.
  destruct use_local_secrets as [ | [|] | z | s | l | d]; try (apply R; reflexivity).
  contradiction.
Qed.

(** X28.  In the remote mode, with a token from the configuration or the
    credential file, [Secret.get] sends one POST to the GraphQL server with
    that token as bearer, the fixed query and the variables [{name: ...}]
    serialized as one string; when the answer is successful and its body
    has no [errors] and holds [data.secret.value], that value is
    returned. *)
Theorem secret_remote_returns_value
    (use_local_secrets : pyval) (context_secrets : option pyval) (name : string)
    (w : World Net) c tok r n d data secret v :
  use_local_secrets <> PBool true ->
  __init__ config None (w_disk w) = Return c ->
  token c = Some tok -> tok <> PNone ->
  let call :=
    mk_call POST (rstrip_slash (graphql_server c))
            [("Authorization", "Bearer " ++ py_str tok)] None None
            (Some (PDict [("query", PStr secret_query);
                          ("variables", PStr (json_dumps (PDict [("name", PStr name)])))])) in
  send call (w_net w) = (Responded r, n) ->
  is_error_status r = false ->
  text r <> EmptyString ->
  json r = Some (PDict d) ->
  dict_get "errors" d = None ->
  dict_get "data" d = Some (PDict data) ->
  dict_get "secret" data = Some (PDict secret) ->
  dict_get "value" secret = Some v ->
  Secret_get send config use_local_secrets context_secrets name w
  = (Return v, mk_world (w_disk w) n (w_log w ++ [(ByRequest, call)])%list).
Proof.
  intros Hlocal Hinit Htok Hnone call Hsend Hok Htext Hjson Herr Hdata Hsecret Hvalue.
  set (st := mk_state c (w_disk w) (w_net w) (w_log w)).
  assert (Hurl : request_url (self st) EmptyString (Some (graphql_server (self st)))
                 = rstrip_slash (graphql_server c)) by apply request_url_root.
  assert (Hpost : post send EmptyString (Some (graphql_server (self st)))
                       (graphql_params secret_query [("name", PStr name)]) st
                  = (Return (PDict d), answered st n ByRequest call)).
  { assert (Hsend' : send (mk_call POST
                             (request_url (self st) EmptyString
                                          (Some (graphql_server (self st))))
                             (bearer tok) None None
                             (Some (PDict (graphql_params secret_query
                                             [("name", PStr name)]))))
                          (net st) = (Responded r, n)).
    { rewrite Hurl. exact Hsend. }
    rewrite (post_after_success st _ _ _ tok r n Htok Hnone Hsend' Hok).
    apply String.eqb_neq in Htext. rewrite Htext, Hjson, Hurl. reflexivity. }
  assert (R : (let (o, st') :=
                 bind (graphql send secret_query [("name", PStr name)])
                      (fun data =>
                         bind (py_getattr data "secret")
                              (fun secret => py_getattr secret "value")) st in
               (o, mk_world (disk st') (net st') (log st')))
              = (Return v, mk_world (w_disk w) n (w_log w ++ [(ByRequest, call)])%list)).
  { unfold bind at 1. rewrite (graphql_after_post _ _ _ _ _ Hpost).
    unfold bind, py_in, dict_has, ret. rewrite Herr.
    rewrite as_nested_dict_id. unfold py_getattr. rewrite Hdata. unfold ret. cbn beta iota.
    rewrite Hsecret. cbn beta iota. rewrite Hvalue. reflexivity. }
  unfold Secret_get. rewrite Hinit. fold st.
  destruct use_local_secrets as [ | [|] | z | s | l | d']; try exact R.
  contradiction.
Qed.

End Coverage.

(** * The further properties at concrete runs *)

Import Scenario2.

Lemma request_success_is_returned_witness :
  _request play "GET" "flows" None None (logged_in [Responded flow_list])
  = (Return flow_list,
     answered (logged_in [Responded flow_list]) [] ByRequest (flows (PStr "old"))).
Proof.
  apply (request_success_is_returned play (logged_in [Responded flow_list])
           "GET" "flows" None None (PStr "old")).
  - reflexivity.
  - discriminate.
  - reflexivity.
  - reflexivity.
  - reflexivity.
Defined.

Lemma request_transport_failure_propagates_witness :
  _request play "GET" "flows" None None (logged_in [Failed "Timeout"])
  = (Raise (RequestException "Timeout"),
     answered (logged_in [Failed "Timeout"]) [] ByRequest (flows (PStr "old"))).
Proof.
  apply (request_transport_failure_propagates play (logged_in [Failed "Timeout"])
           "GET" "flows" None None (PStr "old")).
  - reflexivity.
  - discriminate.
  - reflexivity.
  - reflexivity.
Defined.

Lemma request_invalid_method_sends_nothing_witness :
  _request play "get" "flows" None None (logged_in [Responded flow_list])
  = (Raise (InvalidMethod "get"), logged_in [Responded flow_list]).
Proof.
  apply (request_invalid_method_sends_nothing play (logged_in [Responded flow_list])
           "get" "flows" None None (PStr "old")).
  - reflexivity.
  - discriminate.
  - discriminate.
  - discriminate.
  - discriminate.
Defined.

Lemma post_empty_body_gives_empty_dict_witness :
  post play "flows" None [("name", PStr "etl")]
       (logged_in [respond 204 EmptyString None])
  = (Return (PDict []),
     answered (logged_in [respond 204 EmptyString None]) [] ByRequest
       (post_flows (PStr "old") [("name", PStr "etl")])).
Proof.
  apply (post_empty_body_gives_empty_dict play
           (logged_in [respond 204 EmptyString None]) "flows" None
           [("name", PStr "etl")] (PStr "old") (mk_response 204 EmptyString None) []).
  - reflexivity.
  - discriminate.
  - reflexivity.
  - reflexivity.
  - reflexivity.
Defined.

Lemma post_decodes_non_empty_body_witness :
  post play "flows" None [] (logged_in [Responded flow_list])
  = (Return (PList []),
     answered (logged_in [Responded flow_list]) [] ByRequest (post_flows (PStr "old") [])).
Proof.
  apply (post_decodes_non_empty_body play (logged_in [Responded flow_list]) "flows" None
           [] (PStr "old") flow_list []).
  - reflexivity.
  - discriminate.
  - reflexivity.
  - reflexivity.
  - discriminate.
Defined.

Lemma graphql_posts_to_graphql_server_witness :
  exists c rest,
    grows_by graphql_failing
      (snd (graphql play "query { flow }" [] graphql_failing)) ((ByRequest, c) :: rest)
    /\ call_verb c = POST
    /\ call_url c = rstrip_slash (graphql_server (self graphql_failing))
    /\ call_headers c = [("Authorization", "Bearer " ++ py_str (PStr "old"))]
    /\ call_auth c = None /\ call_params c = None.
Proof.
  apply (graphql_posts_to_graphql_server play graphql_failing "query { flow }" []
           (PStr "old")).
  - reflexivity.
  - discriminate.
Defined.

Lemma graphql_returns_data_entry_witness :
  graphql play "query { flow }" []
          (logged_in [respond_json 200 (PDict [("data", PDict [("flow", PInt 3)])])])
  = (Return (PDict [("flow", PInt 3)]),
     answered (logged_in [respond_json 200 (PDict [("data", PDict [("flow", PInt 3)])])])
       [] ByRequest (graphql_call (graphql_params "query { flow }" []))).
Proof.
  apply (graphql_returns_data_entry play
           (logged_in [respond_json 200 (PDict [("data", PDict [("flow", PInt 3)])])])
           "query { flow }" [] [("data", PDict [("flow", PInt 3)])]).
  - reflexivity.
  - reflexivity.
Defined.

Lemma graphql_non_object_body_raises_witness :
  let st := logged_in [respond_json 200 (PList [PStr "errors"])] in
  snd (graphql play "query { flow }" [] st)
  = answered st [] ByRequest (graphql_call (graphql_params "query { flow }" []))
  /\ exists msg, fst (graphql play "query { flow }" [] st) = Raise (TypeError msg).
Proof.
  apply (graphql_non_object_body_raises play
           (logged_in [respond_json 200 (PList [PStr "errors"])])
           "query { flow }" [] (PList [PStr "errors"])).
  - reflexivity.
  - intros d. discriminate.
Defined.

Lemma refresh_sends_stored_token_and_keeps_file_witness :
  let final := snd (refresh_token play refresh_ok) in
  grows_by refresh_ok final
    [(ByRefresh,
      mk_call POST (os_path_join (api_server (self refresh_ok)) "refresh_token")
              [("Authorization", "Bearer " ++ py_str (PStr "old"))] None None None)]
  /\ disk final = disk refresh_ok
  /\ api_server (self final) = api_server (self refresh_ok)
  /\ graphql_server (self final) = graphql_server (self refresh_ok).
Proof.
  apply (refresh_sends_stored_token_and_keeps_file play refresh_ok (PStr "old")).
  reflexivity.
Defined.

Lemma refresh_error_leaves_client_untouched_witness :
  refresh_token play refresh_not_json
  = (Raise JSONDecodeError, answered refresh_not_json [] ByRefresh refresh_old).
Proof.
  apply (refresh_error_leaves_client_untouched play refresh_not_json (PStr "old")).
  - reflexivity.
  - reflexivity.
Defined.

Lemma refresh_after_logout_sends_nothing_witness :
  refresh_token play (logged_out [respond_json 200 new_token])
  = (Raise (AttributeError "token"), logged_out [respond_json 200 new_token]).
Proof.
  apply (refresh_after_logout_sends_nothing play (logged_out [respond_json 200 new_token])).
  reflexivity.
Defined.

Lemma login_stores_and_persists_token_witness :
  let st := start (Some PNone) None [respond_json 200 new_token] in
  let final := snd (login play no_config None None None None st) in
  fst (login play no_config None None None None st) = Return tt
  /\ token (self final) = Some (PStr "new")
  /\ disk final = mk_disk true (Some "new").
Proof.
  apply (login_stores_and_persists_token play no_config
           (start (Some PNone) None [respond_json 200 new_token]) None None None None
           (mk_response 200 (json_dumps new_token) (Some new_token)) []
           [("token", PStr "new")] "new").
  - reflexivity.
  - reflexivity.
  - reflexivity.
  - reflexivity.
  - discriminate.
Defined.

Lemma login_rejected_changes_nothing_witness :
  login play no_config None None None None (logged_in [Responded unauthorized])
  = (Raise LoginFailed, answered (logged_in [Responded unauthorized]) [] ByLogin login_here).
Proof.
  apply (login_rejected_changes_nothing play no_config
           (logged_in [Responded unauthorized]) None None None None unauthorized []).
  - reflexivity.
  - reflexivity.
Defined.

Lemma login_falsy_token_is_not_persisted_witness :
  let st := logged_in [respond_json 200 empty_string_token] in
  let final := snd (login play no_config None None None None st) in
  fst (login play no_config None None None None st) = Return tt
  /\ token (self final) = Some (PStr EmptyString)
  /\ disk final = disk st.
Proof.
  apply (login_falsy_token_is_not_persisted play no_config
           (logged_in [respond_json 200 empty_string_token]) None None None None
           (mk_response 200 (json_dumps empty_string_token) (Some empty_string_token)) []
           [("token", PStr EmptyString)] (PStr EmptyString)).
  - reflexivity.
  - reflexivity.
  - reflexivity.
  - reflexivity.
  - reflexivity.
Defined.

Lemma login_non_string_token_empties_file_witness :
  let st := logged_in [respond_json 200 numeric_token] in
  let final := snd (login play no_config None None None None st) in
  (exists msg, fst (login play no_config None None None None st) = Raise (TypeError msg))
  /\ token (self final) = Some (PInt 7)
  /\ disk final = mk_disk true (Some EmptyString).
Proof.
  apply (login_non_string_token_empties_file play no_config
           (logged_in [respond_json 200 numeric_token]) None None None None
           (mk_response 200 (json_dumps numeric_token) (Some numeric_token)) []
           [("token", PInt 7)] (PInt 7)).
  - reflexivity.
  - reflexivity.
  - reflexivity.
  - reflexivity.
  - reflexivity.
  - intros s. discriminate.
Defined.

Lemma login_undecodable_body_changes_nothing_witness :
  let st := logged_in [respond 200 "<html>" None] in
  let final := snd (login play no_config None None None None st) in
  (exists e, fst (login play no_config None None None None st) = Raise e
             /\ (e = JSONDecodeError \/ e = AttributeError "get"))
  /\ self final = self st
  /\ disk final = disk st.
Proof.
  apply (login_undecodable_body_changes_nothing play no_config
           (logged_in [respond 200 "<html>" None]) None None None None
           (mk_response 200 "<html>" None) []).
  - reflexivity.
  - reflexivity.
  - intros d. discriminate.
Defined.


Lemma logout_then_new_client_is_unauthenticated_witness :
  let st1 := snd (logout (logged_in [Responded flow_list])) in
  exists c,
    __init__ no_config None (disk st1) = Return c
    /\ token c = Some PNone
    /\ _request play "GET" "flows" None None (mk_state c (disk st1) (net st1) (log st1))
       = (Raise Unauthenticated, mk_state c (disk st1) (net st1) (log st1)).
Proof.
  apply (logout_then_new_client_is_unauthenticated play no_config
           (logged_in [Responded flow_list]) "https://api.prefect.io"
           "GET" "flows" None None).
  - reflexivity.
  - discriminate.
  - reflexivity.
Defined.

Lemma secret_remote_without_token_is_unauthenticated_witness :
  Secret_get play no_config (PInt 1) (Some (PDict [("db", PStr "local")])) "db"
             (world_without_file [respond_json 200 (secret_body (PStr "remote"))])
  = (Raise Unauthenticated,
     world_without_file [respond_json 200 (secret_body (PStr "remote"))]).
Proof.
  apply (secret_remote_without_token_is_unauthenticated play no_config (PInt 1)
           (Some (PDict [("db", PStr "local")])) "db"
           (world_without_file [respond_json 200 (secret_body (PStr "remote"))])
           "https://api.prefect.io").
  - discriminate.
  - reflexivity.
  - discriminate.
  - reflexivity.
  - reflexivity.
Defined.

Lemma secret_remote_returns_value_witness :
  Secret_get play with_config_token (PBool false) None "db"
             (world_without_file [respond_json 200 (secret_body (PStr "remote"))])
  = (Return (PStr "remote"),
     mk_world (mk_disk false None) [] [(ByRequest, secret_call "db")]).
Proof.
  apply (secret_remote_returns_value play with_config_token (PBool false) None "db"
           (world_without_file [respond_json 200 (secret_body (PStr "remote"))])
           (mk_client "https://api.prefect.io" "https://api.prefect.io"
                      (Some (PStr "configured")))
           (PStr "configured")
           (mk_response 200 (json_dumps (secret_body (PStr "remote")))
                        (Some (secret_body (PStr "remote"))))
           []
           [("data", PDict [("secret", PDict [("value", PStr "remote")])])]
           [("secret", PDict [("value", PStr "remote")])]
           [("value", PStr "remote")]
           (PStr "remote")).
  - discriminate.
  - reflexivity.
  - reflexivity.
  - discriminate.
  - reflexivity.
  - reflexivity.
  - vm_compute. discriminate.
  - reflexivity.
  - reflexivity.
  - reflexivity.
  - reflexivity.
  - reflexivity.
Defined.
